(** * xai-mcp: Xircuits components for Model Context Protocol servers

    A shallow embedding of [mcp_components.py]: the server-creation
    component, the three handler-defining components (tool, resource,
    prompt) with the handler closures they register, the result-setting
    components and [MCPGetArgument], followed by the properties of the
    registration lifecycle, of the per-call bridge and of the result keys.
    [MCPRunServer], [MCPReportProgress], [MCPReadResource] and the two
    message-creating components are embedded as well. *)

From Stdlib Require Import ZArith.
From stdpp Require Import gmap strings list fin_maps pretty.

Local Open Scope string_scope.
Local Open Scope list_scope.

(** ** Python values *)

(** The plain data that travels through ports, call arguments and result
    keys.  A dict has string keys and keeps its items in insertion order. *)
#[warnings="-register-all"]
Inductive Value :=
| VNone
| VBool (b : bool)
| VInt (z : Z)
| VStr (s : string)
| VDict (items : list (string * Value)).

(** [bool(v)]: what [if v:] and [if not v:] test. *)
Definition truthy (v : Value) : bool :=
  match v with
  | VNone => false
  | VBool b => b
  | VInt z => negb (z =? 0)%Z
  | VStr s => negb (String.eqb s "")
  | VDict items => match items with [] => false | _ => true end
  end.

(** Truth of an optional string ([None], or a [str]). *)
Definition truthy_str (o : option string) : bool :=
  match o with
  | Some s => negb (String.eqb s "")
  | None => false
  end.

(** [str(x)] of an optional string inside an f-string. *)
Definition str_opt (o : option string) : string :=
  match o with
  | Some s => s
  | None => "None"
  end.

(** [d.get(k)] / [d.get(k, default)] on the items of a dict. *)
Fixpoint dict_get (items : list (string * Value)) (k : string) (default : Value) : Value :=
  match items with
  | [] => default
  | (k', v) :: rest => if String.eqb k' k then v else dict_get rest k default
  end.

Inductive Exn :=
| ImportError
| KeyError (k : string)
| AttributeError
| TypeError.

Inductive Outcome (A : Type) :=
| Ok (a : A)
| Raise (e : Exn).
Arguments Ok {A} a.
Arguments Raise {A} e.

(** ** Ports and chain nodes *)

(** Modelled from the spec: the port classes [InArg]/[InCompArg]/[OutArg]
    of [xai_components.base], which is not under src/.  An input port
    either holds a literal or is connected to the output port [p] of the
    component object [c]; an output port is a slot on the component object,
    written with [self.p.value = v] and shared by everyone connected to it. *)
Inductive InArg :=
| Lit (v : Value)
| Conn (c : nat) (p : string).

(** The components of this library that the chains considered here are
    made of: the three result-setting components and [MCPGetArgument]. *)
Inductive Node :=
| MCPSetToolResult (result : InArg)
| MCPSetResourceResult (result : InArg)
| MCPSetPromptResult (result : InArg)
| MCPGetArgument (self : nat) (args key default : InArg).

Inductive HandlerKind := Tool | Resource | Prompt.

(** A handler-defining component object ([MCPDefineTool],
    [MCPDefineResource] or [MCPDefinePrompt], told apart by [kind]).
    [name] is the [name] port of a tool or prompt and the [path] port of a
    resource; [oid] is the identity of the object; [next] is the chain hanging off the component, [[]] when
    [self.next] is unset. *)
Record Define := {
  kind : HandlerKind;
  oid : nat;
  name : option string;
  description : option string;
  next : list Node
}.

(** The closure [tool_handler] / [resource_handler] / [prompt_handler]
    built by [_register_*]: it captures [self] (and the context dict the
    component was initialised with, which is the process-wide one). *)
Record Handler := { h_self : Define }.

(** ** The protocol server *)

Record Registration := {
  reg_name : option string;
  reg_doc : option string;
  reg_fn : Handler
}.

(** Modelled from the spec: the protocol server handle ([FastMCP] of the
    [mcp] package, an external collaborator that is not under src/).  It is
    represented by what it was created with and by the registration calls
    it has received, in call order: [registerTool(name, fn)],
    [registerResource(uriPattern, fn)], [registerPrompt(name, fn)].  A
    registration without an explicit name has [reg_name = None]. *)
Record FastMCP := {
  srv_name : string;
  srv_dependencies : list string;
  srv_tools : list Registration;
  srv_resources : list Registration;
  srv_prompts : list Registration
}.

(** ** Contexts and program state *)

(** What a context dict holds under a key: plain data, a reference to a
    server object, or a list of component objects.  The lists are only ever
    appended to by [init], on the process-wide dict, so they are kept by
    value. *)
Inductive Entry :=
| EVal (v : Value)
| EServer (sid : nat)
| EComps (l : list Define).

Inductive Line :=
| Print (s : string)
| PrintVal (prefix : string) (v : Value)
| PrintExn (prefix : string) (e : Exn).

(** [ctx] is the dict the running code received as its [ctx] argument;
    [servers] is the heap of server objects, [ports] the output-port slots
    of all component objects, [stdout] what has been printed, and
    [sdk_installed] tells whether [from mcp.server.fastmcp import FastMCP]
    succeeds.

    The last two fields say what the installed [mcp] package, which is not
    under src/, does when this library calls into it.  [rejects k r srv] is
    the fate of the registration call that [_register_tool],
    [_register_resource] or [_register_prompt] makes on the server object
    [srv] ([server._tool(name=...)(handler)], [server._resource(path)(handler)],
    [server._prompt(name=...)(handler)]): [None] when the call goes through
    and [Some e] when it raises [e], because the server has no such
    attribute, refuses the identity, or for any other reason.
    [exports_messages] tells whether [mcp.server.fastmcp] has the names
    [UserMessage] and [AssistantMessage] to import. *)
Record State := {
  ctx : gmap string Entry;
  servers : list FastMCP;
  ports : gmap (nat * string) Value;
  stdout : list Line;
  sdk_installed : bool;
  rejects : HandlerKind -> Registration -> FastMCP -> option Exn;
  exports_messages : bool
}.

Definition set_ctx (c : gmap string Entry) (st : State) : State :=
  {| ctx := c; servers := servers st; ports := ports st;
     stdout := stdout st; sdk_installed := sdk_installed st;
     rejects := rejects st; exports_messages := exports_messages st |}.

Definition set_servers (l : list FastMCP) (st : State) : State :=
  {| ctx := ctx st; servers := l; ports := ports st;
     stdout := stdout st; sdk_installed := sdk_installed st;
     rejects := rejects st; exports_messages := exports_messages st |}.

Definition set_ports (p : gmap (nat * string) Value) (st : State) : State :=
  {| ctx := ctx st; servers := servers st; ports := p;
     stdout := stdout st; sdk_installed := sdk_installed st;
     rejects := rejects st; exports_messages := exports_messages st |}.

Definition set_stdout (o : list Line) (st : State) : State :=
  {| ctx := ctx st; servers := servers st; ports := ports st;
     stdout := o; sdk_installed := sdk_installed st;
     rejects := rejects st; exports_messages := exports_messages st |}.

(** ** A state-and-exception monad *)

Definition M (A : Type) : Type := State -> Outcome A * State.

Definition ret {A} (a : A) : M A := fun st => (Ok a, st).

Definition raise {A} (e : Exn) : M A := fun st => (Raise e, st).

Definition bind {A B} (m : M A) (f : A -> M B) : M B :=
  fun st =>
    match m st with
    | (Ok a, st') => f a st'
    | (Raise e, st') => (Raise e, st')
    end.

Declare Scope py_scope.
Delimit Scope py_scope with py.
Notation "x <- c1 ;; c2" := (bind c1 (fun x => c2))
  (at level 100, c1 at next level, right associativity) : py_scope.
Notation "c1 ;; c2" := (bind c1 (fun _ => c2))
  (at level 100, right associativity) : py_scope.
Local Open Scope py_scope.

Definition get_state : M State := fun st => (Ok st, st).

Definition modify (f : State -> State) : M unit := fun st => (Ok tt, f st).

Definition print (l : Line) : M unit :=
  modify (fun st => set_stdout (stdout st ++ [l]) st).

(** [ctx[k] = e] *)
Definition ctx_set (k : string) (e : Entry) : M unit :=
  modify (fun st => set_ctx (<[k := e]> (ctx st)) st).

(** [k in ctx] *)
Definition ctx_has (k : string) : M bool :=
  fun st => (Ok (bool_decide (is_Some (ctx st !! k))), st).

(** [ctx[k]] *)
Definition ctx_item (k : string) : M Entry :=
  fun st =>
    match ctx st !! k with
    | Some e => (Ok e, st)
    | None => (Raise (KeyError k), st)
    end.

(** [ctx.get(k)] *)
Definition ctx_get (k : string) : M Entry :=
  fun st => (Ok (default (EVal VNone) (ctx st !! k)), st).

(** [p.value] of an input port: the literal, or what the connected
    output port holds ([None] while it was never written). *)
Definition read (a : InArg) : M Value :=
  fun st =>
    match a with
    | Lit v => (Ok v, st)
    | Conn c p => (Ok (default VNone (ports st !! (c, p))), st)
    end.

(** [self.p.value = v] on an output port. *)
Definition write (c : nat) (p : string) (v : Value) : M unit :=
  modify (fun st => set_ports (<[(c, p) := v]> (ports st)) st).

(** ** Context keys *)

Definition MCP_SERVER_KEY := "mcp_server".
Definition MCP_TOOLS_KEY := "mcp_tools".
Definition MCP_RESOURCES_KEY := "mcp_resources".
Definition MCP_PROMPTS_KEY := "mcp_prompts".

(** ** MCPCreateServer *)

Module MCPCreateServer.

Record t := {
  server_name : option string;
  dependencies : option (list string)
}.

(** [FastMCP(name, dependencies=dependencies)]: a new server object on
    the heap, with nothing registered; returns its reference. *)
Definition FastMCP_new (name : string) (deps : list string) : M nat :=
  fun st =>
    (Ok (length (servers st)),
     set_servers (servers st ++
       [{| srv_name := name; srv_dependencies := deps;
           srv_tools := []; srv_resources := []; srv_prompts := [] |}]) st).

Definition execute (self : t) : M unit :=
  st <- get_state ;;
  if negb (sdk_installed st) then
    print (Print "Error: Model Context Protocol SDK not installed.") ;;
    print (Print "Please install it with: pip install mcp") ;;
    ret tt
  else
    let name := server_name self in
    let dependencies := default [] (dependencies self) in
    let name := if negb (truthy_str name) then "xircuits-mcp-server"
                else str_opt name in
    server <- FastMCP_new name dependencies ;;
    print (Print ("Created MCP server: " ++ name)) ;;
    (match dependencies with
     | [] => ret tt
     | _ => print (Print ("With dependencies: " ++ String.concat ", " dependencies))
     end) ;;
    ctx_set MCP_SERVER_KEY (EServer server).

End MCPCreateServer.

(** ** The result-setting components and MCPGetArgument *)

Definition result_key (k : HandlerKind) : string :=
  match k with
  | Tool => "tool_result"
  | Resource => "resource_result"
  | Prompt => "prompt_result"
  end.

(** [args.get(key, default)] for arbitrary values: only a dict has [get],
    and a dict cannot be used as a key. *)
Definition py_get (args key default : Value) : M Value :=
  match args with
  | VDict items =>
      match key with
      | VStr k => ret (dict_get items k default)
      | VDict _ => raise TypeError
      | _ => ret default
      end
  | _ => raise AttributeError
  end.

(** [execute(self, ctx)] of a chain component. *)
Definition execute (n : Node) : M unit :=
  match n with
  | MCPSetToolResult result =>
      v <- read result ;;
      ctx_set "tool_result" (EVal v) ;;
      print (PrintVal "Set tool result: " v)
  | MCPSetResourceResult result =>
      v <- read result ;;
      ctx_set "resource_result" (EVal v) ;;
      print (PrintVal "Set resource result: " v)
  | MCPSetPromptResult result =>
      v <- read result ;;
      ctx_set "prompt_result" (EVal v) ;;
      print (PrintVal "Set prompt result: " v)
  | MCPGetArgument self args key default =>
      args <- read args ;;
      key <- read key ;;
      default <- read default ;;
      if negb (truthy args) then
        print (Print "Warning: Args dictionary is empty or None") ;;
        write self "value" default
      else if negb (truthy key) then
        print (Print "Error: Key is required")
      else
        v <- py_get args key default ;;
        write self "value" v
  end.

(** Modelled from the spec: the graph execution engine
    [SubGraphExecutor(start).do(ctx)] of [xai_components.base], which is
    not under src/: it executes the nodes of the chain one after the other
    on the one context it is given, mutating it in place; an exception in a
    node ends the run and propagates. *)
Fixpoint SubGraphExecutor_do (chain : list Node) : M unit :=
  match chain with
  | [] => ret tt
  | n :: rest => execute n ;; SubGraphExecutor_do rest
  end.

(** ** The handler closures *)

(** Runs [body] with [ctx.copy()] as its context: the writes of [body] to
    context keys land in the copy, and the dict the copy was taken from is
    what it was. *)
Definition with_copy {A} (body : M A) : M A :=
  fun st =>
    let (r, st') := body st in
    (r, set_ctx (ctx st) st').

(** [tool_handler], [resource_handler] and [prompt_handler]: the same body
    up to the result key read at the end.  Positional arguments are
    ignored. *)
Definition handler (self : Define) (kwargs : list (string * Value)) : M Entry :=
  with_copy (
    write (oid self) "args" (VDict kwargs) ;;
    write (oid self) "ctx" (dict_get kwargs "ctx" VNone) ;;
    match next self with
    | [] => ret (EVal VNone)
    | chain =>
        SubGraphExecutor_do chain ;;
        ctx_get (result_key (kind self))
    end).

(** The server calling a function that was registered with it. *)
Definition call (h : Handler) (kwargs : list (string * Value)) : M Entry :=
  handler (h_self h) kwargs.

(** ** MCPDefineTool, MCPDefineResource, MCPDefinePrompt *)

Definition pending_key (k : HandlerKind) : string :=
  match k with
  | Tool => MCP_TOOLS_KEY
  | Resource => MCP_RESOURCES_KEY
  | Prompt => MCP_PROMPTS_KEY
  end.

Definition kind_word (k : HandlerKind) : string :=
  match k with
  | Tool => "tool"
  | Resource => "resource"
  | Prompt => "prompt"
  end.

Definition Kind_word (k : HandlerKind) : string :=
  match k with
  | Tool => "Tool"
  | Resource => "Resource"
  | Prompt => "Prompt"
  end.

(** [ctx.setdefault(k, []).append(c)] *)
Definition setdefault_append (k : string) (c : Define) : M unit :=
  st <- get_state ;;
  match ctx st !! k with
  | None => ctx_set k (EComps [c])
  | Some (EComps l) => ctx_set k (EComps (l ++ [c]))
  | Some _ => raise AttributeError
  end.

(** A method call on the object that [ctx[MCP_SERVER_KEY]] holds. *)
Definition on_server (e : Entry) (f : FastMCP -> FastMCP) : M unit :=
  fun st =>
    match e with
    | EServer sid =>
        match servers st !! sid with
        | Some srv => (Ok tt, set_servers (<[sid := f srv]> (servers st)) st)
        | None => (Raise AttributeError, st)
        end
    | _ => (Raise AttributeError, st)
    end.

Definition add_tool (r : Registration) (srv : FastMCP) : FastMCP :=
  {| srv_name := srv_name srv; srv_dependencies := srv_dependencies srv;
     srv_tools := srv_tools srv ++ [r];
     srv_resources := srv_resources srv; srv_prompts := srv_prompts srv |}.

Definition add_resource (r : Registration) (srv : FastMCP) : FastMCP :=
  {| srv_name := srv_name srv; srv_dependencies := srv_dependencies srv;
     srv_tools := srv_tools srv;
     srv_resources := srv_resources srv ++ [r]; srv_prompts := srv_prompts srv |}.

Definition add_prompt (r : Registration) (srv : FastMCP) : FastMCP :=
  {| srv_name := srv_name srv; srv_dependencies := srv_dependencies srv;
     srv_tools := srv_tools srv;
     srv_resources := srv_resources srv; srv_prompts := srv_prompts srv ++ [r] |}.

(** The name a component's handler is registered under: the [name] of a
    tool or prompt when it is non-empty and no explicit name otherwise
    ([server._tool()] / [server._prompt()]); the [path] of a resource as it
    is. *)
Definition registered_name (c : Define) : option string :=
  match kind c with
  | Resource => name c
  | _ => if truthy_str (name c) then name c else None
  end.

Definition registration (c : Define) : Registration :=
  {| reg_name := registered_name c;
     reg_doc := description c;
     reg_fn := {| h_self := c |} |}.

(** The registration call [server._tool(...)(handler)],
    [server._resource(...)(handler)] or [server._prompt(...)(handler)] on
    the object that [ctx[MCP_SERVER_KEY]] holds: the package decides
    whether it raises; when it does not, the server has one more
    registration of that kind. *)
Definition registration_call (e : Entry) (k : HandlerKind) (r : Registration)
    (f : FastMCP -> FastMCP) : M unit :=
  fun st =>
    match e with
    | EServer sid =>
        match servers st !! sid with
        | Some srv =>
            match rejects st k r srv with
            | Some exn => (Raise exn, st)
            | None => (Ok tt, set_servers (<[sid := f srv]> (servers st)) st)
            end
        | None => (Raise AttributeError, st)
        end
    | _ => (Raise AttributeError, st)
    end.

(** [_register_tool], [_register_resource], [_register_prompt] *)
Definition _register (self : Define) : M unit :=
  server <- ctx_item MCP_SERVER_KEY ;;
  (match kind self with
   | Tool =>
       registration_call server Tool (registration self)
         (add_tool (registration self))
   | Resource =>
       registration_call server Resource (registration self)
         (add_resource (registration self))
   | Prompt =>
       registration_call server Prompt (registration self)
         (add_prompt (registration self))
   end) ;;
  print (Print ("Registered " ++ kind_word (kind self) ++ ": " ++ str_opt (name self))).

Definition init (self : Define) : M unit :=
  has <- ctx_has MCP_SERVER_KEY ;;
  (if negb has then
     print (Print ("Warning: MCP server not found in context when registering "
                   ++ kind_word (kind self) ++ " '" ++ str_opt (name self) ++ "'. "
                   ++ Kind_word (kind self)
                   ++ " will be registered when server is created."))
   else ret tt) ;;
  setdefault_append (pending_key (kind self)) self ;;
  has <- ctx_has MCP_SERVER_KEY ;;
  if has then _register self else ret tt.

(** ** MCPRunServer *)

Definition try_except {A} (body : M A) (except : Exn -> M A) : M A :=
  fun st =>
    match body st with
    | (Ok a, st') => (Ok a, st')
    | (Raise e, st') => except e st'
    end.

Module MCPRunServer.

(** [for x in ctx.get(k, []): pass] *)
Definition for_pass (k : string) : M unit :=
  st <- get_state ;;
  match ctx st !! k with
  | None => ret tt
  | Some (EComps _) => ret tt
  | Some (EVal (VStr _)) => ret tt
  | Some (EVal (VDict _)) => ret tt
  | Some _ => raise TypeError
  end.

(** [server.run()]: serving is the protocol library's business; the call
    is taken to return when the server shuts down. *)
Definition run (server : Entry) : M unit := on_server server (fun srv => srv).

Definition execute : M unit :=
  has <- ctx_has MCP_SERVER_KEY ;;
  if negb has then
    print (Print "Error: MCP server not found in context. Please create a server first.")
  else
    server <- ctx_item MCP_SERVER_KEY ;;
    try_except
      (print (Print "Starting MCP server...") ;;
       for_pass MCP_TOOLS_KEY ;;
       for_pass MCP_RESOURCES_KEY ;;
       for_pass MCP_PROMPTS_KEY ;;
       run server)
      (fun e => print (PrintExn "Error running MCP server: " e)).

End MCPRunServer.

(** ** Vocabulary of the properties *)

(** The state a handler's chain starts in: the state of the call with the
    two output ports of the defining component written (the context copy
    is taken by [with_copy]). *)
Definition enter (self : Define) (kwargs : list (string * Value)) (st : State) : State :=
  set_ports (<[(oid self, "ctx") := dict_get kwargs "ctx" VNone]>
              (<[(oid self, "args") := VDict kwargs]> (ports st))) st.

(** The result-setting component of a kind, and the test for it. *)
Definition set_result (k : HandlerKind) (result : InArg) : Node :=
  match k with
  | Tool => MCPSetToolResult result
  | Resource => MCPSetResourceResult result
  | Prompt => MCPSetPromptResult result
  end.

Definition is_set (k : HandlerKind) (n : Node) : bool :=
  match k, n with
  | Tool, MCPSetToolResult _ => true
  | Resource, MCPSetResourceResult _ => true
  | Prompt, MCPSetPromptResult _ => true
  | _, _ => false
  end.

(** No node of the chain sets the result of kind [k]. *)
Definition no_set (k : HandlerKind) (chain : list Node) : bool :=
  forallb (fun n => negb (is_set k n)) chain.

(** The value an input port delivers in a state. *)
Definition value_of (a : InArg) (st : State) : Value :=
  match a with
  | Lit v => v
  | Conn c p => default VNone (ports st !! (c, p))
  end.

(** The registration calls of one kind that a server has received. *)
Definition registrations (k : HandlerKind) (srv : FastMCP) : list Registration :=
  match k with
  | Tool => srv_tools srv
  | Resource => srv_resources srv
  | Prompt => srv_prompts srv
  end.

(** The list of components a context holds under a pending key. *)
Definition pending (k : HandlerKind) (c : gmap string Entry) : list Define :=
  match c !! pending_key k with
  | Some (EComps l) => l
  | _ => []
  end.

(** The server object a context refers to, if any. *)
Definition server_of (st : State) : option FastMCP :=
  match ctx st !! MCP_SERVER_KEY with
  | Some (EServer sid) => servers st !! sid
  | _ => None
  end.

(** A context as the components of this library leave it: the server key,
    when present, refers to a server object on the heap, and a pending
    key, when present, holds a list of components. *)
Definition well_formed (st : State) : Prop :=
  (forall e, ctx st !! MCP_SERVER_KEY = Some e ->
     exists sid srv, e = EServer sid /\ servers st !! sid = Some srv) /\
  (forall k e, ctx st !! pending_key k = Some e -> exists l, e = EComps l).

(** Calls served one after the other; results are dropped, the state is
    threaded through. *)
Fixpoint serve (calls : list (Handler * list (string * Value))) (st : State) : State :=
  match calls with
  | [] => st
  | (h, kwargs) :: rest => serve rest (snd (call h kwargs st))
  end.

(** The server after the registration call [_register self] makes. *)
Definition bind_to (self : Define) (srv : FastMCP) : FastMCP :=
  match kind self with
  | Tool => add_tool (registration self) srv
  | Resource => add_resource (registration self) srv
  | Prompt => add_prompt (registration self) srv
  end.

(** The lines [init] and [_register] print. *)
Definition warning_line (self : Define) : Line :=
  Print ("Warning: MCP server not found in context when registering "
         ++ kind_word (kind self) ++ " '" ++ str_opt (name self) ++ "'. "
         ++ Kind_word (kind self)
         ++ " will be registered when server is created.").

Definition registered_line (self : Define) : Line :=
  Print ("Registered " ++ kind_word (kind self) ++ ": " ++ str_opt (name self)).

(** Computations that leave the context and the server objects alone. *)
Definition keeps_registry {A} (m : M A) : Prop :=
  forall st, ctx (snd (m st)) = ctx st /\ servers (snd (m st)) = servers st.

(** ** Interleaved invocations *)

(** Modelled from the spec: invocations that overlap in time (section 5 of
    the specification: the protocol server may run several handler calls
    at once).  The source has no scheduler of its own; a running call is
    cut at its statements: entering the handler (the copy of the context
    and the two port writes), each node of the chain, and the final read
    of the result key.  [tool_ctx] is the call's local copy. *)
Inductive Phase :=
| Start
| Running (tool_ctx : gmap string Entry) (rest : list Node)
| Done (r : Outcome Entry).

Record Invocation := {
  inv_self : Define;
  inv_kwargs : list (string * Value);
  inv_phase : Phase
}.

Definition at_phase (i : Invocation) (ph : Phase) : Invocation :=
  {| inv_self := inv_self i; inv_kwargs := inv_kwargs i; inv_phase := ph |}.

Definition invocation (self : Define) (kwargs : list (string * Value)) : Invocation :=
  {| inv_self := self; inv_kwargs := kwargs; inv_phase := Start |}.

(** One statement of one call. *)
Definition step (i : Invocation) (st : State) : Invocation * State :=
  match inv_phase i with
  | Start =>
      (at_phase i
         match next (inv_self i) with
         | [] => Done (Ok (EVal VNone))
         | chain => Running (ctx st) chain
         end,
       enter (inv_self i) (inv_kwargs i) st)
  | Running tool_ctx (n :: rest) =>
      match execute n (set_ctx tool_ctx st) with
      | (Ok _, st') => (at_phase i (Running (ctx st') rest), set_ctx (ctx st) st')
      | (Raise e, st') => (at_phase i (Done (Raise e)), set_ctx (ctx st) st')
      end
  | Running tool_ctx [] =>
      (at_phase i
         (Done (Ok (default (EVal VNone)
                      (tool_ctx !! result_key (kind (inv_self i)))))),
       st)
  | Done r => (i, st)
  end.

(** A call running alone for [n] statements. *)
Fixpoint solo (n : nat) (i : Invocation) (st : State) : Invocation * State :=
  match n with
  | O => (i, st)
  | S n' => let (i', st') := step i st in solo n' i' st'
  end.

(** Two calls under a schedule: [true] lets the first call take its next
    statement, [false] the second. *)
Fixpoint interleave (sched : list bool) (a b : Invocation) (st : State)
  : Invocation * Invocation * State :=
  match sched with
  | [] => (a, b, st)
  | true :: sched' => let (a', st') := step a st in interleave sched' a' b st'
  | false :: sched' => let (b', st') := step b st in interleave sched' a b' st'
  end.

(** How many statements the schedule gives to the first call. *)
Fixpoint turns (sched : list bool) : nat :=
  match sched with
  | [] => 0
  | true :: sched' => S (turns sched')
  | false :: sched' => turns sched'
  end.

(** A node, or a chain, that takes all its inputs from literals. *)
Definition literal (a : InArg) : bool :=
  match a with
  | Lit _ => true
  | Conn _ _ => false
  end.

Definition literal_node (n : Node) : bool :=
  match n with
  | MCPSetToolResult result => literal result
  | MCPSetResourceResult result => literal result
  | MCPSetPromptResult result => literal result
  | MCPGetArgument _ args key default =>
      literal args && literal key && literal default
  end.

Definition literal_chain (chain : list Node) : bool := forallb literal_node chain.

(** The nodes an invocation still has to run take their inputs from
    literals. *)
Definition literal_invocation (i : Invocation) : bool :=
  match inv_phase i with
  | Start => literal_chain (next (inv_self i))
  | Running _ rest => literal_chain rest
  | Done _ => true
  end.

(** ** Sample graphs *)

Module Sample.

(** A fresh process: empty context, no server object, and an SDK
    installed whose servers take every registration call and which has
    the message classes. *)
Definition fresh : State :=
  {| ctx := ∅; servers := []; ports := ∅; stdout := []; sdk_installed := true;
     rejects := fun _ _ _ => None; exports_messages := true |}.

(** The same process without the SDK. *)
Definition no_sdk : State :=
  {| ctx := ∅; servers := []; ports := ∅; stdout := []; sdk_installed := false;
     rejects := fun _ _ _ => None; exports_messages := false |}.

Definition create_s : MCPCreateServer.t :=
  {| MCPCreateServer.server_name := Some "s";
     MCPCreateServer.dependencies := None |}.

Definition create_unnamed : MCPCreateServer.t :=
  {| MCPCreateServer.server_name := None;
     MCPCreateServer.dependencies := Some ["httpx"; "pandas"] |}.

(** A process in which a server named "s" was created. *)
Definition serving : State := snd (MCPCreateServer.execute create_s fresh).

(** A tool whose chain sets 1 and then 5 as its result. *)
Definition five : Define :=
  {| kind := Tool; oid := 1; name := Some "five"; description := Some "Five.";
     next := [MCPSetToolResult (Lit (VInt 1)); MCPSetToolResult (Lit (VInt 5))] |}.

(** A tool with nothing attached to it. *)
Definition bare : Define :=
  {| kind := Tool; oid := 3; name := Some "bare"; description := None; next := [] |}.

(** A tool whose chain fetches the argument [x] and returns it. *)
Definition echo : Define :=
  {| kind := Tool; oid := 4; name := Some "echo"; description := None;
     next := [MCPGetArgument 5 (Conn 4 "args") (Lit (VStr "x")) (Lit VNone);
              MCPSetToolResult (Conn 5 "value")] |}.

(** A tool whose chain expects [{"user": {"id": ...}}] and returns the id. *)
Definition user_id : Define :=
  {| kind := Tool; oid := 6; name := Some "user_id"; description := None;
     next := [MCPGetArgument 7 (Conn 6 "args") (Lit (VStr "user")) (Lit VNone);
              MCPGetArgument 8 (Conn 7 "value") (Lit (VStr "id")) (Lit VNone);
              MCPSetToolResult (Conn 8 "value")] |}.

(** A tool whose chain looks at its argument and sets no result. *)
Definition probe : Define :=
  {| kind := Tool; oid := 11; name := Some "probe"; description := None;
     next := [MCPGetArgument 12 (Conn 11 "args") (Lit (VStr "x")) (Lit VNone)] |}.

(** A resource whose chain touches no result key. *)
Definition silent : Define :=
  {| kind := Resource; oid := 9; name := Some "users://{id}/profile";
     description := None;
     next := [MCPGetArgument 10 (Conn 9 "args") (Lit (VStr "id")) (Lit VNone)] |}.

(** A tool whose chain sets a result and then fails. *)
Definition set_then_fail : Define :=
  {| kind := Tool; oid := 15; name := Some "set_then_fail"; description := None;
     next := [MCPSetToolResult (Lit (VInt 1));
              MCPGetArgument 16 (Lit (VStr "oops")) (Lit (VStr "id")) (Lit VNone)] |}.

(** A tool whose chain returns what the [value] port of the
    [MCPGetArgument] node of [echo] holds. *)
Definition replay : Define :=
  {| kind := Tool; oid := 17; name := Some "replay"; description := None;
     next := [MCPSetToolResult (Conn 5 "value")] |}.

(** The serving process after [MCPSetToolResult] ran on the process-wide
    context itself, outside any call. *)
Definition stale : State :=
  snd (execute (MCPSetToolResult (Lit (VStr "stale"))) serving).

(** Is there a registration under the name [n] among [rs]? *)
Definition taken (n : option string) (rs : list Registration) : bool :=
  existsb (fun r => bool_decide (reg_name r = n)) rs.

(** A process with a server named "s" whose package refuses an identity
    that is already registered for the kind. *)
Definition strict : State :=
  snd (MCPCreateServer.execute create_s
         {| ctx := ∅; servers := []; ports := ∅; stdout := []; sdk_installed := true;
            rejects := fun k r srv =>
              if taken (reg_name r) (registrations k srv)
              then Some (KeyError (str_opt (reg_name r))) else None;
            exports_messages := true |}).

(** A process with a server named "s" whose package has no attribute
    [_tool], [_resource] or [_prompt] on its servers. *)
Definition underscoreless : State :=
  snd (MCPCreateServer.execute create_s
         {| ctx := ∅; servers := []; ports := ∅; stdout := []; sdk_installed := true;
            rejects := fun _ _ _ => Some AttributeError;
            exports_messages := false |}).

(** A process whose tool list was overwritten with a string. *)
Definition clobbered : State :=
  set_ctx (<[MCP_TOOLS_KEY := EVal (VStr "five")]> (ctx serving)) serving.

End Sample.

(** ** Several components initialised in a row *)

(** The [init] methods of the given components run one after the other
    on the same context, as a flow does for its start nodes. *)
Fixpoint init_all (cs : list Define) : M unit :=
  match cs with
  | [] => ret tt
  | c :: rest => init c ;; init_all rest
  end.

Definition of_kind (k : HandlerKind) (c : Define) : bool :=
  match k, kind c with
  | Tool, Tool => true
  | Resource, Resource => true
  | Prompt, Prompt => true
  | _, _ => false
  end.

(** The server after the registration calls of the given components, in
    order. *)
Definition bind_all (cs : list Define) (srv : FastMCP) : FastMCP :=
  fold_left (fun s c => bind_to c s) cs srv.

(** The package takes the registration call of each of the given
    components, made in order on the server [srv]. *)
Fixpoint accepts_all
    (fate : HandlerKind -> Registration -> FastMCP -> option Exn)
    (cs : list Define) (srv : FastMCP) : Prop :=
  match cs with
  | [] => True
  | c :: rest =>
      fate (kind c) (registration c) srv = None /\
      accepts_all fate rest (bind_to c srv)
  end.

(** Keys of the items of a dict. *)
Definition dict_keys (items : list (string * Value)) : list string := map fst items.

(** ** The caller handle and the components that use it *)

Module Caller.

Inductive Call :=
| info (message : string)
| report_progress (current total : Z)
| read_resource (uri : string).

(** Modelled from the spec: the caller handle (the [Context] object of the
    [mcp] package that a call receives, an external collaborator that is
    not under src/), with its methods [info(message)],
    [report_progress(current, total)] and [read_resource(uri)].  It is
    represented by the calls it has received, in order, and by two oracles
    over that history: which call raises, and what a read returns. *)
Record Handle := {
  raises : list Call -> Call -> option Exn;
  resource : list Call -> string -> Value * Value;
  received : list Call
}.

(** The state these components run in: the program state, and the object
    their [ctx_obj] port delivers ([None] when the port holds [None]). *)
Record Session := {
  state : State;
  caller : option Handle
}.

Definition C (A : Type) : Type := Session -> Outcome A * Session.

Definition cbind {A B} (m : C A) (f : A -> C B) : C B :=
  fun s =>
    match m s with
    | (Ok a, s') => f a s'
    | (Raise e, s') => (Raise e, s')
    end.

Definition ctry {A} (body : C A) (except : Exn -> C A) : C A :=
  fun s =>
    match body s with
    | (Ok a, s') => (Ok a, s')
    | (Raise e, s') => except e s'
    end.

(** A computation on the program state, run inside a session. *)
Definition lift {A} (m : M A) : C A :=
  fun s =>
    let (r, st') := m (state s) in
    (r, {| state := st'; caller := caller s |}).

(** A method call on the handle: the handle records it, then raises or
    returns as its oracle says. *)
Definition method (c : Call) : C (Value * Value) :=
  fun s =>
    match caller s with
    | None => (Raise AttributeError, s)
    | Some h =>
        let s' := {| state := state s;
                     caller := Some {| raises := raises h;
                                       resource := resource h;
                                       received := received h ++ [c] |} |} in
        match raises h (received h) c with
        | Some e => (Raise e, s')
        | None =>
            (Ok match c with
                | read_resource uri => resource h (received h) uri
                | _ => (VNone, VNone)
                end, s')
        end
    end.

Declare Scope caller_scope.
Notation "x <- c1 ;; c2" := (cbind c1 (fun x => c2))
  (at level 100, c1 at next level, right associativity) : caller_scope.
Notation "c1 ;; c2" := (cbind c1 (fun _ => c2))
  (at level 100, right associativity) : caller_scope.

Definition has_caller : C bool := fun s => (Ok (bool_decide (is_Some (caller s))), s).

Definition cret {A} (a : A) : C A := fun s => (Ok a, s).

End Caller.

(** ** MCPReportProgress *)

Module MCPReportProgress.

Import Caller.
Local Open Scope caller_scope.

Record t := {
  current : option Z;
  total : option Z;
  message : option string
}.

Definition execute (self : t) : C unit :=
  ctx_obj <- has_caller ;;
  if negb ctx_obj then
    lift (print (Print "Error: MCP context object is required"))
  else
    match current self, total self with
    | Some current, Some total =>
        ctry
          ((if truthy_str (message self)
            then method (info (str_opt (message self))) ;; cret tt
            else cret tt) ;;
           method (report_progress current total) ;;
           lift (print (Print ("Reported progress: " ++ pretty current
                               ++ "/" ++ pretty total))))
          (fun e => lift (print (PrintExn "Error reporting progress: " e)))
    | _, _ =>
        lift (print (Print "Error: Current and total progress values are required"))
    end.

End MCPReportProgress.

(** ** MCPReadResource *)

Module MCPReadResource.

Import Caller.
Local Open Scope caller_scope.

Record t := {
  self : nat;
  uri : option string
}.

Definition execute (c : t) : C unit :=
  ctx_obj <- has_caller ;;
  if negb ctx_obj then
    lift (print (Print "Error: MCP context object is required"))
  else if negb (truthy_str (uri c)) then
    lift (print (Print "Error: Resource URI is required"))
  else
    ctry
      (r <- method (read_resource (str_opt (uri c))) ;;
       lift (write (self c) "data" (fst r)) ;;
       lift (write (self c) "mime_type" (snd r)) ;;
       lift (print (Print ("Read resource: " ++ str_opt (uri c)))))
      (fun e => lift (print (PrintExn "Error reading resource: " e))).

End MCPReadResource.

(** ** MCPCreateUserMessage and MCPCreateAssistantMessage *)

Module MCPCreateMessage.

Inductive Role := User | Assistant.

Definition role_word (r : Role) : string :=
  match r with
  | User => "user"
  | Assistant => "assistant"
  end.

(** [MCPCreateUserMessage] or [MCPCreateAssistantMessage], told apart by
    [role]. *)
Record t := {
  role : Role;
  self : nat;
  content : option string
}.

(** [from mcp.server.fastmcp import UserMessage] (or [AssistantMessage]):
    it needs the package, and the package must have the name. *)
Definition import_message : M unit :=
  st <- get_state ;;
  if sdk_installed st && exports_messages st then ret tt else raise ImportError.

(** A text made of ASCII characters only, for which a byte of the [string]
    and a character of the Python [str] are the same thing. *)
Fixpoint ascii_only (s : string) : bool :=
  match s with
  | EmptyString => true
  | String a rest => Nat.ltb (Ascii.nat_of_ascii a) 128 && ascii_only rest
  end.

(** Modelled from the spec: the message objects [UserMessage(content)] and
    [AssistantMessage(content)] of the [mcp] package, which is not under
    src/; an object is represented by its role and its content.  A content
    is a [string] with one [ascii] per character, so that [content[:50]]
    is its first 50 characters. *)
Definition Message (r : Role) (content : string) : Value :=
  VDict [("role", VStr (role_word r)); ("content", VStr content)].

Definition execute (c : t) : M unit :=
  if negb (truthy_str (content c)) then
    print (Print "Error: Message content is required")
  else
    try_except
      (import_message ;;
       write (self c) "message" (Message (role c) (str_opt (content c))) ;;
       print (Print ("Created " ++ role_word (role c) ++ " message: "
                     ++ String.substring 0 50 (str_opt (content c)) ++ "...")))
      (fun e => print (PrintExn ("Error creating " ++ role_word (role c)
                                 ++ " message: ") e)).

End MCPCreateMessage.

(** ** Sample sessions *)

Module SampleCaller.

(** A handle on which nothing fails; every resource reads as the text
    "hello". *)
Definition obliging : Caller.Handle :=
  {| Caller.raises := fun _ _ => None;
     Caller.resource := fun _ _ => (VStr "hello", VStr "text/plain");
     Caller.received := [] |}.

(** A handle whose [info] and [read_resource] fail. *)
Definition grumpy : Caller.Handle :=
  {| Caller.raises := fun _ c =>
       match c with
       | Caller.report_progress _ _ => None
       | _ => Some TypeError
       end;
     Caller.resource := fun _ _ => (VNone, VNone);
     Caller.received := [] |}.

Definition with_handle (h : Caller.Handle) : Caller.Session :=
  {| Caller.state := Sample.fresh; Caller.caller := Some h |}.

Definition progress : MCPReportProgress.t :=
  {| MCPReportProgress.current := Some 0%Z;
     MCPReportProgress.total := Some 10%Z;
     MCPReportProgress.message := Some "starting" |}.

Definition profile : MCPReadResource.t :=
  {| MCPReadResource.self := 20; MCPReadResource.uri := Some "users://42/profile" |}.

Definition greeting : MCPCreateMessage.t :=
  {| MCPCreateMessage.role := MCPCreateMessage.User;
     MCPCreateMessage.self := 21;
     MCPCreateMessage.content := Some "Hello there" |}.

End SampleCaller.

(** * Properties *)

(** ** Server creation *)

Section CreateServer.

Import MCPCreateServer.

Variable self : MCPCreateServer.t.
Variable st : State.

(** What [execute] does when the SDK can be imported: one new server
    object with nothing registered, stored under [MCP_SERVER_KEY]. *)
Lemma execute_installed :
  sdk_installed st = true ->
  exists out,
    execute self st =
      (Ok tt,
       {| ctx := <[MCP_SERVER_KEY := EServer (length (servers st))]> (ctx st);
          servers := servers st ++
            [{| srv_name := if truthy_str (server_name self)
                            then str_opt (server_name self)
                            else "xircuits-mcp-server";
                srv_dependencies := default [] (dependencies self);
                srv_tools := []; srv_resources := []; srv_prompts := [] |}];
          ports := ports st;
          stdout := stdout st ++ out;
          sdk_installed := sdk_installed st;
     rejects := rejects st; exports_messages := exports_messages st |}).
Proof.
  intros Hsdk. unfold execute, bind, get_state. rewrite Hsdk. simpl.
  destruct (truthy_str (server_name self)); simpl;
    destruct (default [] (dependencies self)) eqn:Hdeps;
    unfold print, ctx_set, modify, ret, set_ctx, set_stdout, set_servers;
    simpl; rewrite ?Hsdk, <- ?app_assoc; eexists; reflexivity.
Qed.

(** What [execute] does when the import fails. *)
Lemma execute_not_installed :
  sdk_installed st = false ->
  execute self st =
    (Ok tt,
     set_stdout (stdout st ++
       [Print "Error: Model Context Protocol SDK not installed.";
        Print "Please install it with: pip install mcp"]) st).
Proof.
  intros Hsdk. unfold execute, bind, get_state. rewrite Hsdk. simpl.
  unfold set_stdout. simpl. rewrite <- app_assoc. reflexivity.
Qed.

End CreateServer.

(** C9: with an empty or absent server name, [MCPCreateServer.execute]
    does not fail; it creates the server under the default name
    "xircuits-mcp-server" and stores it in the context. *)
Theorem createServer_default_name (self : MCPCreateServer.t) (st : State) :
  sdk_installed st = true ->
  MCPCreateServer.server_name self = None \/
  MCPCreateServer.server_name self = Some "" ->
  fst (MCPCreateServer.execute self st) = Ok tt /\
  server_of (snd (MCPCreateServer.execute self st)) =
    Some {| srv_name := "xircuits-mcp-server";
            srv_dependencies := default [] (MCPCreateServer.dependencies self);
            srv_tools := []; srv_resources := []; srv_prompts := [] |}.
Proof.
  intros Hsdk Hname.
  destruct (execute_installed self st Hsdk) as [out ->].
  assert (truthy_str (MCPCreateServer.server_name self) = false) as ->
    by (destruct Hname as [-> | ->]; reflexivity).
  split; [reflexivity |].
  unfold server_of. simpl. rewrite lookup_insert_eq.
  apply list_lookup_middle. reflexivity.
Qed.

Lemma createServer_default_name_witness :
  sdk_installed Sample.fresh = true /\
  fst (MCPCreateServer.execute Sample.create_unnamed Sample.fresh) = Ok tt /\
  server_of (snd (MCPCreateServer.execute Sample.create_unnamed Sample.fresh)) =
    Some {| srv_name := "xircuits-mcp-server";
            srv_dependencies := ["httpx"; "pandas"];
            srv_tools := []; srv_resources := []; srv_prompts := [] |}.
Proof.
  split; [reflexivity |].
  apply (createServer_default_name Sample.create_unnamed Sample.fresh);
    [reflexivity | left; reflexivity].
Defined.

(** C8, as stated, fails: without the SDK [MCPCreateServer.execute] raises
    nothing. *)
Lemma createServer_without_sdk_raises_nothing :
  sdk_installed Sample.no_sdk = false /\
  ~ exists e, fst (MCPCreateServer.execute Sample.create_s Sample.no_sdk) = Raise e.
Proof.
  split; [reflexivity |]. intros [e He]. vm_compute in He. discriminate He.
Qed.

(** C8, amended: when the SDK cannot be imported, [MCPCreateServer.execute]
    prints an error and an installation hint and returns normally; the
    context, and with it the server slot, is unchanged, no server object is
    created and nothing is registered anywhere. *)
Theorem createServer_without_sdk (self : MCPCreateServer.t) (st : State) :
  sdk_installed st = false ->
  fst (MCPCreateServer.execute self st) = Ok tt /\
  ctx (snd (MCPCreateServer.execute self st)) = ctx st /\
  servers (snd (MCPCreateServer.execute self st)) = servers st /\
  stdout (snd (MCPCreateServer.execute self st)) =
    stdout st ++ [Print "Error: Model Context Protocol SDK not installed.";
                  Print "Please install it with: pip install mcp"].
Proof.
  intros Hsdk. rewrite (execute_not_installed self st Hsdk). simpl. auto.
Qed.

Lemma createServer_without_sdk_witness :
  fst (MCPCreateServer.execute Sample.create_s Sample.no_sdk) = Ok tt /\
  ctx (snd (MCPCreateServer.execute Sample.create_s Sample.no_sdk)) = ∅ /\
  servers (snd (MCPCreateServer.execute Sample.create_s Sample.no_sdk)) = [] /\
  stdout (snd (MCPCreateServer.execute Sample.create_s Sample.no_sdk)) =
    [Print "Error: Model Context Protocol SDK not installed.";
     Print "Please install it with: pip install mcp"].
Proof.
  apply (createServer_without_sdk Sample.create_s Sample.no_sdk). reflexivity.
Defined.

(** ** Registration *)

Lemma pending_key_not_server (k : HandlerKind) : pending_key k <> MCP_SERVER_KEY.
Proof. destruct k; discriminate. Qed.

Section Init.

Variable self : Define.
Variable st : State.

Hypothesis pending_is_list :
  forall e, ctx st !! pending_key (kind self) = Some e -> exists l, e = EComps l.

(** [init] before any server exists: a warning, and the component joins
    the pending list of its kind. *)
Lemma init_without_server :
  ctx st !! MCP_SERVER_KEY = None ->
  init self st =
    (Ok tt,
     {| ctx := <[pending_key (kind self) :=
                   EComps (pending (kind self) (ctx st) ++ [self])]> (ctx st);
        servers := servers st;
        ports := ports st;
        stdout := stdout st ++ [warning_line self];
        sdk_installed := sdk_installed st;
     rejects := rejects st; exports_messages := exports_messages st |}).
Proof.
  intros Hnone. unfold init, bind, ctx_has. rewrite Hnone. simpl.
  unfold setdefault_append, bind, get_state, pending. simpl.
  destruct (ctx st !! pending_key (kind self)) as [e |] eqn:He.
  - destruct (pending_is_list e eq_refl) as [l ->]. simpl.
    rewrite lookup_insert_ne by apply pending_key_not_server.
    rewrite Hnone. reflexivity.
  - simpl. rewrite lookup_insert_ne by apply pending_key_not_server.
    rewrite Hnone. reflexivity.
Qed.

(** [init] with a server in the context: the component joins the pending
    list and its handler is registered with that server. *)
Lemma init_with_server (sid : nat) (srv : FastMCP) :
  ctx st !! MCP_SERVER_KEY = Some (EServer sid) ->
  servers st !! sid = Some srv ->
  rejects st (kind self) (registration self) srv = None ->
  init self st =
    (Ok tt,
     {| ctx := <[pending_key (kind self) :=
                   EComps (pending (kind self) (ctx st) ++ [self])]> (ctx st);
        servers := <[sid := bind_to self srv]> (servers st);
        ports := ports st;
        stdout := stdout st ++ [registered_line self];
        sdk_installed := sdk_installed st;
        rejects := rejects st; exports_messages := exports_messages st |}).
Proof.
  intros Hkey Hsrv Haccept. unfold init, bind, ctx_has. rewrite Hkey. simpl.
  unfold setdefault_append, bind, get_state, pending. simpl.
  assert (forall l,
    (has <- ctx_has MCP_SERVER_KEY ;; if has then _register self else ret tt)
      (set_ctx (<[pending_key (kind self) := EComps l]> (ctx st)) st) =
    (Ok tt,
     {| ctx := <[pending_key (kind self) := EComps l]> (ctx st);
        servers := <[sid := bind_to self srv]> (servers st);
        ports := ports st;
        stdout := stdout st ++ [registered_line self];
        sdk_installed := sdk_installed st;
        rejects := rejects st; exports_messages := exports_messages st |})) as Hrest.
  { intros l. unfold bind, ctx_has, _register, bind, ctx_item. simpl.
    rewrite lookup_insert_ne by apply pending_key_not_server.
    rewrite Hkey. simpl.
    rewrite lookup_insert_ne by apply pending_key_not_server.
    rewrite Hkey. unfold bind_to, registered_line, registration_call.
    destruct (kind self) eqn:Hk; simpl; rewrite Hsrv, Haccept; reflexivity. }
  destruct (ctx st !! pending_key (kind self)) as [e |] eqn:He.
  - destruct (pending_is_list e eq_refl) as [l ->]. simpl. apply Hrest.
  - simpl. apply Hrest.
Qed.

(** [init] with a server that refuses the registration call: the
    exception leaves [init]; the component has joined the pending list
    before. *)
Lemma init_with_server_refused (sid : nat) (srv : FastMCP) (exn : Exn) :
  ctx st !! MCP_SERVER_KEY = Some (EServer sid) ->
  servers st !! sid = Some srv ->
  rejects st (kind self) (registration self) srv = Some exn ->
  init self st =
    (Raise exn,
     set_ctx (<[pending_key (kind self) :=
                  EComps (pending (kind self) (ctx st) ++ [self])]> (ctx st)) st).
Proof.
  intros Hkey Hsrv Hrefuse. unfold init, bind, ctx_has. rewrite Hkey. simpl.
  unfold setdefault_append, bind, get_state, pending. simpl.
  assert (forall l,
    (has <- ctx_has MCP_SERVER_KEY ;; if has then _register self else ret tt)
      (set_ctx (<[pending_key (kind self) := EComps l]> (ctx st)) st) =
    (Raise exn,
     set_ctx (<[pending_key (kind self) := EComps l]> (ctx st)) st)) as Hrest.
  { intros l. unfold bind, ctx_has, _register, bind, ctx_item. simpl.
    rewrite lookup_insert_ne by apply pending_key_not_server.
    rewrite Hkey. simpl.
    rewrite lookup_insert_ne by apply pending_key_not_server.
    rewrite Hkey. unfold registration_call.
    destruct (kind self) eqn:Hk; simpl; rewrite Hsrv, Hrefuse; reflexivity. }
  destruct (ctx st !! pending_key (kind self)) as [e |] eqn:He.
  - destruct (pending_is_list e eq_refl) as [l ->]. simpl. apply Hrest.
  - simpl. apply Hrest.
Qed.

End Init.

Lemma registrations_bind_to (self : Define) (srv : FastMCP) :
  registrations (kind self) (bind_to self srv) =
  registrations (kind self) srv ++ [registration self].
Proof. unfold bind_to. destruct (kind self); reflexivity. Qed.

Lemma server_of_inv (st : State) (srv : FastMCP) :
  server_of st = Some srv ->
  exists sid, ctx st !! MCP_SERVER_KEY = Some (EServer sid) /\
              servers st !! sid = Some srv.
Proof.
  unfold server_of. intros H.
  destruct (ctx st !! MCP_SERVER_KEY) as [[v | sid | l] |]; try discriminate.
  exists sid. auto.
Qed.

(** The state [init] leaves when the context refers to a server that takes
    the registration call. *)
Lemma init_bound (self : Define) (st : State) (srv : FastMCP) :
  well_formed st ->
  server_of st = Some srv ->
  rejects st (kind self) (registration self) srv = None ->
  fst (init self st) = Ok tt /\
  well_formed (snd (init self st)) /\
  server_of (snd (init self st)) = Some (bind_to self srv) /\
  pending (kind self) (ctx (snd (init self st))) =
    pending (kind self) (ctx st) ++ [self] /\
  stdout (snd (init self st)) = stdout st ++ [registered_line self] /\
  rejects (snd (init self st)) = rejects st.
Proof.
  intros [Hwf_s Hwf_p] Hsrv Haccept.
  destruct (server_of_inv st srv Hsrv) as (sid & Hkey & Hheap).
  rewrite (init_with_server self st (Hwf_p (kind self)) sid srv Hkey Hheap Haccept).
  simpl. pose proof (lookup_lt_Some _ _ _ Hheap) as Hlt.
  split; [reflexivity |]. split; [| split; [| split; [| split]]].
  - split; simpl.
    + intros e. rewrite lookup_insert_ne by apply pending_key_not_server.
      rewrite Hkey. intros [= <-]. exists sid, (bind_to self srv).
      split; [reflexivity |]. apply list_lookup_insert_eq, Hlt.
    + intros k e. destruct (decide (pending_key (kind self) = pending_key k)) as [Heq | Hne].
      * rewrite Heq, lookup_insert_eq. intros [= <-]. eauto.
      * rewrite lookup_insert_ne by exact Hne. apply Hwf_p.
  - unfold server_of. simpl.
    rewrite lookup_insert_ne by apply pending_key_not_server.
    rewrite Hkey. apply list_lookup_insert_eq, Hlt.
  - unfold pending at 1. simpl. rewrite lookup_insert_eq. reflexivity.
  - reflexivity.
  - reflexivity.
Qed.

(** The state [init] leaves when the server refuses the registration
    call. *)
Lemma init_refused (self : Define) (st : State) (srv : FastMCP) (exn : Exn) :
  well_formed st ->
  server_of st = Some srv ->
  rejects st (kind self) (registration self) srv = Some exn ->
  fst (init self st) = Raise exn /\
  well_formed (snd (init self st)) /\
  server_of (snd (init self st)) = Some srv /\
  servers (snd (init self st)) = servers st /\
  pending (kind self) (ctx (snd (init self st))) =
    pending (kind self) (ctx st) ++ [self] /\
  stdout (snd (init self st)) = stdout st /\
  rejects (snd (init self st)) = rejects st.
Proof.
  intros [Hwf_s Hwf_p] Hsrv Hrefuse.
  destruct (server_of_inv st srv Hsrv) as (sid & Hkey & Hheap).
  rewrite (init_with_server_refused self st (Hwf_p (kind self)) sid srv exn
             Hkey Hheap Hrefuse).
  simpl. split; [reflexivity |]. split; [| split; [| split; [| split; [| auto]]]].
  - split; simpl.
    + intros e. rewrite lookup_insert_ne by apply pending_key_not_server.
      rewrite Hkey. intros [= <-]. eauto.
    + intros k e. destruct (decide (pending_key (kind self) = pending_key k)) as [Heq | Hne].
      * rewrite Heq, lookup_insert_eq. intros [= <-]. eauto.
      * rewrite lookup_insert_ne by exact Hne. apply Hwf_p.
  - unfold server_of. simpl.
    rewrite lookup_insert_ne by apply pending_key_not_server.
    rewrite Hkey. exact Hheap.
  - reflexivity.
  - unfold pending at 1. simpl. rewrite lookup_insert_eq. reflexivity.
Qed.

(** With a server in a well-formed context, [init] returns normally
    exactly when the server takes the registration call. *)
Lemma init_returns_iff (self : Define) (st : State) (srv : FastMCP) :
  well_formed st ->
  server_of st = Some srv ->
  fst (init self st) = Ok tt <->
  rejects st (kind self) (registration self) srv = None.
Proof.
  intros Hwf Hsrv.
  destruct (rejects st (kind self) (registration self) srv) as [exn |] eqn:Hfate.
  - destruct (init_refused self st srv exn Hwf Hsrv Hfate) as [-> _].
    split; discriminate.
  - destruct (init_bound self st srv Hwf Hsrv Hfate) as [-> _].
    split; reflexivity.
Qed.

(** C3: a component whose [init] runs while the context holds a server is
    appended to the pending list of its kind, and by the time [init]
    returns its handler function is registered with that server under its
    identity (the name of a tool or prompt, the path of a resource).
    [init] returns whenever the server takes the registration call; when
    the server raises instead, the exception leaves [init] and the server
    is as it was. *)
Theorem init_binds_when_server_present (self : Define) (st : State) (srv : FastMCP) :
  well_formed st ->
  server_of st = Some srv ->
  kind self = Resource \/ truthy_str (name self) = true ->
  (fst (init self st) = Ok tt ->
   pending (kind self) (ctx (snd (init self st))) =
     pending (kind self) (ctx st) ++ [self] /\
   exists srv',
     server_of (snd (init self st)) = Some srv' /\
     registrations (kind self) srv' =
       registrations (kind self) srv ++
         [{| reg_name := name self;
             reg_doc := description self;
             reg_fn := {| h_self := self |} |}]) /\
  (rejects st (kind self) (registration self) srv = None ->
   fst (init self st) = Ok tt) /\
  (forall exn,
     rejects st (kind self) (registration self) srv = Some exn ->
     fst (init self st) = Raise exn /\
     server_of (snd (init self st)) = Some srv).
Proof.
  intros Hwf Hsrv Hname. split; [| split].
  - intros Hok. apply (init_returns_iff self st srv Hwf Hsrv) in Hok.
    destruct (init_bound self st srv Hwf Hsrv Hok) as (_ & _ & Hsrv' & Hpend & _).
    split; [exact Hpend |].
    exists (bind_to self srv). split; [exact Hsrv' |].
    rewrite registrations_bind_to. unfold registration, registered_name.
    destruct Hname as [-> | ->]; [reflexivity |].
    destruct (kind self); reflexivity.
  - apply (init_returns_iff self st srv Hwf Hsrv).
  - intros exn Hrefuse.
    destruct (init_refused self st srv exn Hwf Hsrv Hrefuse) as (Hraise & _ & Hsame & _).
    auto.
Qed.

Lemma serving_well_formed : well_formed Sample.serving.
Proof.
  split.
  - intros e He. vm_compute in He. injection He as <-.
    exists 0, {| srv_name := "s"; srv_dependencies := [];
                 srv_tools := []; srv_resources := []; srv_prompts := [] |}.
    split; reflexivity.
  - intros k e He. destruct k; vm_compute in He; discriminate He.
Defined.

Lemma strict_well_formed : well_formed Sample.strict.
Proof.
  split.
  - intros e He. vm_compute in He. injection He as <-.
    exists 0, {| srv_name := "s"; srv_dependencies := [];
                 srv_tools := []; srv_resources := []; srv_prompts := [] |}.
    split; reflexivity.
  - intros k e He. destruct k; vm_compute in He; discriminate He.
Defined.

Lemma underscoreless_well_formed : well_formed Sample.underscoreless.
Proof.
  split.
  - intros e He. vm_compute in He. injection He as <-.
    exists 0, {| srv_name := "s"; srv_dependencies := [];
                 srv_tools := []; srv_resources := []; srv_prompts := [] |}.
    split; reflexivity.
  - intros k e He. destruct k; vm_compute in He; discriminate He.
Defined.

Lemma init_binds_when_server_present_witness :
  (fst (init Sample.five Sample.serving) = Ok tt /\
   pending Tool (ctx (snd (init Sample.five Sample.serving))) = [Sample.five] /\
   exists srv',
     server_of (snd (init Sample.five Sample.serving)) = Some srv' /\
     registrations Tool srv' =
       [{| reg_name := Some "five";
           reg_doc := Some "Five.";
           reg_fn := {| h_self := Sample.five |} |}]) /\
  (fst (init Sample.five Sample.underscoreless) = Raise AttributeError /\
   server_of (snd (init Sample.five Sample.underscoreless)) =
     Some {| srv_name := "s"; srv_dependencies := [];
             srv_tools := []; srv_resources := []; srv_prompts := [] |}).
Proof.
  split.
  - pose proof (init_binds_when_server_present Sample.five Sample.serving
                  {| srv_name := "s"; srv_dependencies := [];
                     srv_tools := []; srv_resources := []; srv_prompts := [] |}
                  serving_well_formed eq_refl (or_intror eq_refl))
      as (Hbound & Hreturns & _).
    split; [exact (Hreturns eq_refl) | exact (Hbound (Hreturns eq_refl))].
  - apply (init_binds_when_server_present Sample.five Sample.underscoreless
             {| srv_name := "s"; srv_dependencies := [];
                srv_tools := []; srv_resources := []; srv_prompts := [] |}
             underscoreless_well_formed eq_refl (or_intror eq_refl)).
    reflexivity.
Defined.

(** C4, as stated, fails: running [init] a second time for the same
    component, with the server present, is not a no-op.  It makes the
    registration call a second time: a server that takes it holds the
    handler twice, and with a server that refuses a name already taken the
    second [init] raises; in both cases the pending list holds the
    component twice. *)
Lemma second_init_registers_again :
  let st1 := snd (init Sample.five Sample.serving) in
  let st2 := snd (init Sample.five st1) in
  let st1' := snd (init Sample.five Sample.strict) in
  let st2' := snd (init Sample.five st1') in
  registrations Tool <$> server_of st1 = Some [registration Sample.five] /\
  registrations Tool <$> server_of st2 =
    Some [registration Sample.five; registration Sample.five] /\
  servers st2 <> servers st1 /\
  fst (init Sample.five st1') = Raise (KeyError "five") /\
  pending Tool (ctx st1') = [Sample.five] /\
  pending Tool (ctx st2') = [Sample.five; Sample.five].
Proof.
  split; [reflexivity |]. split; [reflexivity |]. split; [| repeat split].
  intros H. vm_compute in H. discriminate H.
Qed.

(** C4, amended: [init] has no bound flag and no guard of its own.  Every
    run of [init] with the server present appends the component to the
    pending list once more and makes the registration call once more;
    whether the handler is attached again is the server's decision alone.
    After two runs the pending list holds the component twice; a server
    that takes both calls holds two registrations of the handler, and a
    server that refuses the second call keeps one, the exception leaving
    the second [init]. *)
Theorem init_twice_binds_twice (self : Define) (st : State) (srv : FastMCP) :
  well_formed st ->
  server_of st = Some srv ->
  rejects st (kind self) (registration self) srv = None ->
  pending (kind self) (ctx (snd (init self (snd (init self st))))) =
    pending (kind self) (ctx st) ++ [self; self] /\
  (rejects st (kind self) (registration self) (bind_to self srv) = None ->
   fst (init self (snd (init self st))) = Ok tt /\
   exists srv',
     server_of (snd (init self (snd (init self st)))) = Some srv' /\
     registrations (kind self) srv' =
       registrations (kind self) srv ++ [registration self; registration self]) /\
  (forall exn,
     rejects st (kind self) (registration self) (bind_to self srv) = Some exn ->
     fst (init self (snd (init self st))) = Raise exn /\
     exists srv',
       server_of (snd (init self (snd (init self st)))) = Some srv' /\
       registrations (kind self) srv' =
         registrations (kind self) srv ++ [registration self]).
Proof.
  intros Hwf Hsrv Hfirst.
  destruct (init_bound self st srv Hwf Hsrv Hfirst)
    as (_ & Hwf1 & Hsrv1 & Hpend1 & _ & Hsame).
  split; [| split].
  - destruct (rejects st (kind self) (registration self) (bind_to self srv))
      as [exn |] eqn:Hsecond.
    + rewrite <- Hsame in Hsecond.
      destruct (init_refused self _ _ exn Hwf1 Hsrv1 Hsecond)
        as (_ & _ & _ & _ & Hpend2 & _).
      rewrite Hpend2, Hpend1, <- app_assoc. reflexivity.
    + rewrite <- Hsame in Hsecond.
      destruct (init_bound self _ _ Hwf1 Hsrv1 Hsecond) as (_ & _ & _ & Hpend2 & _).
      rewrite Hpend2, Hpend1, <- app_assoc. reflexivity.
  - intros Hsecond. rewrite <- Hsame in Hsecond.
    destruct (init_bound self _ _ Hwf1 Hsrv1 Hsecond) as (Hok2 & _ & Hsrv2 & _).
    split; [exact Hok2 |].
    exists (bind_to self (bind_to self srv)). split; [exact Hsrv2 |].
    rewrite !registrations_bind_to, <- app_assoc. reflexivity.
  - intros exn Hsecond. rewrite <- Hsame in Hsecond.
    destruct (init_refused self _ _ exn Hwf1 Hsrv1 Hsecond) as (Hraise & _ & Hsrv2 & _).
    split; [exact Hraise |].
    exists (bind_to self srv). split; [exact Hsrv2 |].
    apply registrations_bind_to.
Qed.

Lemma init_twice_binds_twice_witness :
  (pending Tool (ctx (snd (init Sample.five (snd (init Sample.five Sample.serving))))) =
     [Sample.five; Sample.five] /\
   fst (init Sample.five (snd (init Sample.five Sample.serving))) = Ok tt /\
   exists srv',
     server_of (snd (init Sample.five (snd (init Sample.five Sample.serving)))) =
       Some srv' /\
     registrations Tool srv' = [registration Sample.five; registration Sample.five]) /\
  (fst (init Sample.five (snd (init Sample.five Sample.strict))) =
     Raise (KeyError "five") /\
   exists srv',
     server_of (snd (init Sample.five (snd (init Sample.five Sample.strict)))) =
       Some srv' /\
     registrations Tool srv' = [registration Sample.five]).
Proof.
  split.
  - pose proof (init_twice_binds_twice Sample.five Sample.serving
                  {| srv_name := "s"; srv_dependencies := [];
                     srv_tools := []; srv_resources := []; srv_prompts := [] |}
                  serving_well_formed eq_refl eq_refl) as (Hpend & Haccept & _).
    split; [exact Hpend | exact (Haccept eq_refl)].
  - pose proof (init_twice_binds_twice Sample.five Sample.strict
                  {| srv_name := "s"; srv_dependencies := [];
                     srv_tools := []; srv_resources := []; srv_prompts := [] |}
                  strict_well_formed eq_refl eq_refl) as (_ & _ & Hrefuse).
    exact (Hrefuse (KeyError "five") eq_refl).
Defined.

(** [MCPCreateServer.execute] registers nothing: the server it stores has
    received no registration call, and the pending lists are untouched. *)
Lemma createServer_registers_nothing (self : MCPCreateServer.t) (st : State) :
  sdk_installed st = true ->
  (exists srv,
     server_of (snd (MCPCreateServer.execute self st)) = Some srv /\
     forall k, registrations k srv = []) /\
  forall k, pending k (ctx (snd (MCPCreateServer.execute self st))) = pending k (ctx st).
Proof.
  intros Hsdk. destruct (execute_installed self st Hsdk) as [out ->]. simpl. split.
  - eexists. split.
    + unfold server_of. simpl. rewrite lookup_insert_eq.
      apply list_lookup_middle. reflexivity.
    + intros k. destruct k; reflexivity.
  - intros k. unfold pending. simpl.
    rewrite lookup_insert_ne by (apply not_eq_sym, pending_key_not_server).
    reflexivity.
Qed.

Lemma keeps_bind {A B} (m : M A) (f : A -> M B) :
  keeps_registry m -> (forall a, keeps_registry (f a)) -> keeps_registry (bind m f).
Proof.
  intros Hm Hf st. unfold bind. specialize (Hm st).
  destruct (m st) as [[a | e] st1]; simpl in *; [| exact Hm].
  destruct (Hf a st1) as [-> ->]. exact Hm.
Qed.

Lemma keeps_try_except {A} (body : M A) (except : Exn -> M A) :
  keeps_registry body -> (forall e, keeps_registry (except e)) ->
  keeps_registry (try_except body except).
Proof.
  intros Hm Hf st. unfold try_except. specialize (Hm st).
  destruct (body st) as [[a | e] st1]; simpl in *; [exact Hm |].
  destruct (Hf e st1) as [-> ->]. exact Hm.
Qed.

Lemma keeps_print (l : Line) : keeps_registry (print l).
Proof. intros st. split; reflexivity. Qed.

Lemma keeps_for_pass (k : string) : keeps_registry (MCPRunServer.for_pass k).
Proof.
  intros st. unfold MCPRunServer.for_pass, bind, get_state.
  destruct (ctx st !! k) as [[[] | |] |]; split; reflexivity.
Qed.

Lemma keeps_run (server : Entry) : keeps_registry (MCPRunServer.run server).
Proof.
  intros st. unfold MCPRunServer.run, on_server.
  destruct server as [v | sid | l]; try (split; reflexivity).
  destruct (servers st !! sid) eqn:Hsid; simpl; [| split; reflexivity].
  split; [reflexivity |]. apply list_insert_id, Hsid.
Qed.

(** [MCPRunServer.execute] changes nothing but the output: it registers
    nothing either. *)
Lemma runServer_registers_nothing : keeps_registry MCPRunServer.execute.
Proof.
  unfold MCPRunServer.execute.
  apply keeps_bind; [intros st; split; reflexivity |].
  intros has. destruct has; simpl; [| apply keeps_print].
  apply keeps_bind.
  { intros st. unfold ctx_item. destruct (ctx st !! MCP_SERVER_KEY); split; reflexivity. }
  intros server. apply keeps_try_except; [| intros e; apply keeps_print].
  repeat (apply keeps_bind; [first [apply keeps_print | apply keeps_for_pass] | intros _]).
  apply keeps_run.
Qed.

(** C2, on the code: a tool defined before the server is created is still
    unregistered after [MCPCreateServer.execute], and after
    [MCPRunServer.execute] as well: it sits in the pending list, the
    warning that it "will be registered when server is created" has been
    printed, and the server has received no registration call. *)
Theorem define_then_create_leaves_tool_unbound :
  let st1 := snd (init Sample.five Sample.fresh) in
  let st2 := snd (MCPCreateServer.execute Sample.create_s st1) in
  let st3 := snd (MCPRunServer.execute st2) in
  fst (MCPCreateServer.execute Sample.create_s st1) = Ok tt /\
  pending Tool (ctx st3) = [Sample.five] /\
  server_of st3 =
    Some {| srv_name := "s"; srv_dependencies := [];
            srv_tools := []; srv_resources := []; srv_prompts := [] |} /\
  stdout st3 =
    [warning_line Sample.five;
     Print "Created MCP server: s";
     Print "Starting MCP server..."].
Proof. vm_compute. auto. Qed.

(** ** The bridge *)

(** The handler, statement by statement: the chain runs from [enter] on the
    copy; afterwards the process-wide context is what it was. *)
Lemma handler_eq (self : Define) (kwargs : list (string * Value)) (st : State) :
  handler self kwargs st =
    match next self with
    | [] => (Ok (EVal VNone), enter self kwargs st)
    | _ =>
        match SubGraphExecutor_do (next self) (enter self kwargs st) with
        | (Ok _, st1) =>
            (Ok (default (EVal VNone) (ctx st1 !! result_key (kind self))),
             set_ctx (ctx st) st1)
        | (Raise e, st1) => (Raise e, set_ctx (ctx st) st1)
        end
    end.
Proof.
  unfold handler, with_copy, bind, write, modify. simpl.
  change (set_ports _ (set_ports _ st)) with (enter self kwargs st).
  destruct (next self) as [| n rest] eqn:Hnext; [reflexivity |].
  change (execute n ;; SubGraphExecutor_do rest)
    with (SubGraphExecutor_do (n :: rest)).
  destruct (SubGraphExecutor_do (n :: rest) (enter self kwargs st))
    as [[[] | e] st1]; reflexivity.
Qed.

Lemma do_app (pre post : list Node) (st : State) :
  SubGraphExecutor_do (pre ++ post) st =
    match SubGraphExecutor_do pre st with
    | (Ok _, st1) => SubGraphExecutor_do post st1
    | (Raise e, st1) => (Raise e, st1)
    end.
Proof.
  revert st. induction pre as [| n pre IH]; intros st; simpl; [reflexivity |].
  unfold bind. destruct (execute n st) as [[[] | e] st1]; [apply IH | reflexivity].
Qed.

(** A result-setting node stores the value its port delivers. *)
Lemma execute_set_result (k : HandlerKind) (a : InArg) (st : State) :
  fst (execute (set_result k a) st) = Ok tt /\
  ctx (snd (execute (set_result k a) st)) !! result_key k = Some (EVal (value_of a st)).
Proof.
  destruct k, a; simpl; unfold bind, read; simpl;
    (split; [reflexivity | apply lookup_insert_eq]).
Qed.

Lemma keeps_read (a : InArg) : keeps_registry (read a).
Proof. intros st. destruct a; split; reflexivity. Qed.

Lemma keeps_write (c : nat) (p : string) (v : Value) : keeps_registry (write c p v).
Proof. intros st. split; reflexivity. Qed.

Lemma keeps_py_get (args key default : Value) : keeps_registry (py_get args key default).
Proof. intros st. destruct args, key; split; reflexivity. Qed.

(** [MCPGetArgument] writes its own output port and nothing else. *)
Lemma keeps_get_argument (c : nat) (args key default : InArg) :
  keeps_registry (execute (MCPGetArgument c args key default)).
Proof.
  simpl. repeat (apply keeps_bind; [apply keeps_read | intros ?]).
  repeat case_match;
    repeat first [apply keeps_print | apply keeps_write
                 | apply keeps_bind; [first [apply keeps_print | apply keeps_py_get] | intros ?]].
Qed.

(** Any other node leaves the result key of kind [k] alone. *)
Lemma execute_other (k : HandlerKind) (n : Node) (st : State) :
  is_set k n = false ->
  ctx (snd (execute n st)) !! result_key k = ctx st !! result_key k.
Proof.
  intros Hn. destruct n as [a | a | a | c args key dflt].
  - destruct k; try discriminate; destruct a; simpl; apply lookup_insert_ne; discriminate.
  - destruct k; try discriminate; destruct a; simpl; apply lookup_insert_ne; discriminate.
  - destruct k; try discriminate; destruct a; simpl; apply lookup_insert_ne; discriminate.
  - rewrite (proj1 (keeps_get_argument c args key dflt st)). reflexivity.
Qed.

Lemma do_no_set (k : HandlerKind) (chain : list Node) (st : State) :
  no_set k chain = true ->
  ctx (snd (SubGraphExecutor_do chain st)) !! result_key k = ctx st !! result_key k.
Proof.
  revert st. induction chain as [| n chain IH]; intros st Hno; [reflexivity |].
  simpl in Hno. apply andb_true_iff in Hno as [Hn Hchain].
  apply negb_true_iff in Hn. simpl. unfold bind.
  pose proof (execute_other k n st Hn) as Hstep.
  destruct (execute n st) as [[[] | e] st1]; simpl in *; [| exact Hstep].
  rewrite IH by exact Hchain. exact Hstep.
Qed.

(** C6, as stated, fails: calling a handler with nothing attached returns
    the empty result, but not a single line is logged for the call. *)
Lemma no_chain_logs_nothing :
  next Sample.bare = [] /\
  fst (handler Sample.bare [] Sample.serving) = Ok (EVal VNone) /\
  ~ exists l rest,
      stdout (snd (handler Sample.bare [] Sample.serving)) =
      stdout Sample.serving ++ l :: rest.
Proof.
  split; [reflexivity |]. split; [reflexivity |].
  intros (l & rest & H). vm_compute in H. discriminate H.
Qed.

(** C6, amended: a call of a handler whose component has no chain returns
    the empty result without raising; nothing is logged, and only the two
    output ports of the component are written. *)
Theorem handler_without_chain (self : Define) (kwargs : list (string * Value)) (st : State) :
  next self = [] ->
  handler self kwargs st = (Ok (EVal VNone), enter self kwargs st) /\
  stdout (snd (handler self kwargs st)) = stdout st /\
  ctx (snd (handler self kwargs st)) = ctx st /\
  servers (snd (handler self kwargs st)) = servers st.
Proof.
  intros Hnext. rewrite handler_eq, Hnext. simpl. auto.
Qed.

Lemma handler_without_chain_witness :
  handler Sample.bare [] Sample.serving =
    (Ok (EVal VNone), enter Sample.bare [] Sample.serving) /\
  stdout (snd (handler Sample.bare [] Sample.serving)) = stdout Sample.serving /\
  ctx (snd (handler Sample.bare [] Sample.serving)) = ctx Sample.serving /\
  servers (snd (handler Sample.bare [] Sample.serving)) = servers Sample.serving.
Proof.
  apply (handler_without_chain Sample.bare [] Sample.serving). reflexivity.
Defined.

(** C5, as stated, fails: called with a string where its chain expects a
    dict, the handler of [Sample.user_id] lets the [AttributeError] of
    [MCPGetArgument] out instead of returning the empty result. *)
Lemma chain_exception_escapes :
  fst (handler Sample.user_id [("user", VStr "oops")] Sample.serving) =
    Raise AttributeError /\
  fst (handler Sample.user_id [("user", VStr "oops")] Sample.serving) <>
    Ok (EVal VNone).
Proof. split; [reflexivity | discriminate]. Qed.

(** C5, amended: the bridge catches nothing.  An exception raised while
    the chain executes leaves the handler function as it is, towards the
    protocol server, and the handler function prints nothing for it; when
    the chain completes, the handler returns what the call's copy of the
    context holds under the result key of its kind, the empty result when
    it holds nothing there, and the empty result when there is no chain.
    Either way the process-wide context is what it was before the call. *)
Theorem handler_propagates_exceptions
    (self : Define) (kwargs : list (string * Value)) (st st1 : State) :
  (forall e,
     SubGraphExecutor_do (next self) (enter self kwargs st) = (Raise e, st1) ->
     handler self kwargs st = (Raise e, set_ctx (ctx st) st1)) /\
  (SubGraphExecutor_do (next self) (enter self kwargs st) = (Ok tt, st1) ->
   handler self kwargs st =
     (Ok match next self with
         | [] => EVal VNone
         | _ :: _ => default (EVal VNone) (ctx st1 !! result_key (kind self))
         end,
      set_ctx (ctx st) st1)).
Proof.
  split.
  - intros e Hrun. rewrite handler_eq.
    destruct (next self) as [| n rest] eqn:Hnext; [discriminate Hrun |].
    rewrite Hrun. reflexivity.
  - intros Hrun. rewrite handler_eq.
    destruct (next self) as [| n rest] eqn:Hnext.
    + injection Hrun as <-. reflexivity.
    + rewrite Hrun. reflexivity.
Qed.

Lemma handler_propagates_exceptions_witness :
  handler Sample.user_id [("user", VStr "oops")] Sample.serving =
    (Raise AttributeError,
     set_ctx (ctx Sample.serving)
       (snd (SubGraphExecutor_do (next Sample.user_id)
               (enter Sample.user_id [("user", VStr "oops")] Sample.serving)))) /\
  handler Sample.five [] Sample.serving =
    (Ok (EVal (VInt 5)),
     set_ctx (ctx Sample.serving)
       (snd (SubGraphExecutor_do (next Sample.five)
               (enter Sample.five [] Sample.serving)))).
Proof.
  split.
  - apply (proj1 (handler_propagates_exceptions Sample.user_id
                    [("user", VStr "oops")] Sample.serving _)).
    reflexivity.
  - exact (proj2 (handler_propagates_exceptions Sample.five [] Sample.serving
                    (snd (SubGraphExecutor_do (next Sample.five)
                            (enter Sample.five [] Sample.serving))))
             eq_refl).
Defined.

(** A chain that completes without setting a result of the handler's kind
    hands back what the process-wide context held under the result key at
    the start of the call. *)
Lemma handler_no_set (self : Define) (kwargs : list (string * Value)) (st : State) :
  fst (SubGraphExecutor_do (next self) (enter self kwargs st)) = Ok tt ->
  no_set (kind self) (next self) = true ->
  fst (handler self kwargs st) =
    Ok match next self with
       | [] => EVal VNone
       | _ :: _ => default (EVal VNone) (ctx st !! result_key (kind self))
       end.
Proof.
  intros Hdone Hno. rewrite handler_eq.
  destruct (next self) as [| n rest] eqn:Hchain; [reflexivity |].
  pose proof (do_no_set (kind self) (n :: rest) (enter self kwargs st) Hno) as Hkeep.
  destruct (SubGraphExecutor_do (n :: rest) (enter self kwargs st))
    as [[[] | e] st1]; [| discriminate Hdone].
  simpl in *. rewrite Hkeep. reflexivity.
Qed.

(** C7, as stated, fails, in its second half: after a result-setting
    component has run on the process-wide context, a call whose chain
    completes without setting any result does not return the empty result
    but that value; and, for the first half, a chain that sets a result
    and then raises returns nothing at all. *)
Lemma unset_result_is_not_empty :
  (no_set Tool (next Sample.probe) = true /\
   fst (SubGraphExecutor_do (next Sample.probe)
          (enter Sample.probe [("x", VInt 3)] Sample.stale)) = Ok tt /\
   fst (handler Sample.probe [("x", VInt 3)] Sample.stale) = Ok (EVal (VStr "stale"))) /\
  fst (handler Sample.set_then_fail [] Sample.serving) = Raise AttributeError.
Proof. repeat split. Qed.

(** C7, amended: when the chain of a call completes, the handler returns
    the value given to the last result-setting node of its kind that the
    traversal executed; when the chain completes without setting a result
    of that kind, the handler returns, without an error, what the
    process-wide context held under the result key of that kind when the
    call started: the empty result when it held nothing there, and always
    the empty result when the handler has no chain. *)
Theorem last_write_wins (self : Define) (kwargs : list (string * Value)) (st : State) :
  fst (SubGraphExecutor_do (next self) (enter self kwargs st)) = Ok tt ->
  (forall pre a post,
     next self = pre ++ set_result (kind self) a :: post ->
     no_set (kind self) post = true ->
     fst (handler self kwargs st) =
       Ok (EVal (value_of a (snd (SubGraphExecutor_do pre (enter self kwargs st)))))) /\
  (no_set (kind self) (next self) = true ->
   fst (handler self kwargs st) =
     Ok match next self with
        | [] => EVal VNone
        | _ :: _ => default (EVal VNone) (ctx st !! result_key (kind self))
        end).
Proof.
  intros Hdone. split.
  - intros pre a post Hnext Hpost. rewrite handler_eq.
    destruct (next self) as [| n rest] eqn:Hchain;
      [destruct pre; discriminate Hnext |].
    rewrite Hnext, do_app in Hdone |- *. simpl in Hdone |- *. unfold bind in *.
    destruct (SubGraphExecutor_do pre (enter self kwargs st)) as [[[] | e] st1];
      [| discriminate Hdone].
    destruct (execute_set_result (kind self) a st1) as [Hok Hkey].
    destruct (execute (set_result (kind self) a) st1) as [[[] | e] st2];
      [| discriminate Hok].
    simpl in Hkey.
    pose proof (do_no_set (kind self) post st2 Hpost) as Hkeep.
    destruct (SubGraphExecutor_do post st2) as [[[] | e] st3];
      [| discriminate Hdone].
    simpl in *. rewrite Hkeep, Hkey. reflexivity.
  - intros Hno. apply handler_no_set; assumption.
Qed.

Lemma last_write_wins_witness :
  fst (handler Sample.five [] Sample.serving) = Ok (EVal (VInt 5)) /\
  fst (handler Sample.silent [("id", VStr "42")] Sample.serving) = Ok (EVal VNone) /\
  fst (handler Sample.probe [("x", VInt 3)] Sample.stale) = Ok (EVal (VStr "stale")).
Proof.
  split; [| split].
  - apply (proj1 (last_write_wins Sample.five [] Sample.serving eq_refl)
             [MCPSetToolResult (Lit (VInt 1))] (Lit (VInt 5)) []);
      reflexivity.
  - exact (proj2 (last_write_wins Sample.silent [("id", VStr "42")]
                    Sample.serving eq_refl) eq_refl).
  - exact (proj2 (last_write_wins Sample.probe [("x", VInt 3)]
                    Sample.stale eq_refl) eq_refl).
Defined.

(** A call leaves the process-wide context as it found it, whatever its
    chain does and however it ends. *)
Lemma call_keeps_ctx (h : Handler) (kwargs : list (string * Value)) (st : State) :
  ctx (snd (call h kwargs st)) = ctx st.
Proof.
  unfold call, handler, with_copy.
  match goal with |- context [let (_, _) := ?m st in _] => destruct (m st) end.
  reflexivity.
Qed.

Lemma serve_keeps_ctx (calls : list (Handler * list (string * Value))) (st : State) :
  ctx (serve calls st) = ctx st.
Proof.
  revert st. induction calls as [| [h kwargs] calls IH]; intros st; simpl;
    [reflexivity |].
  rewrite IH. apply call_keeps_ctx.
Qed.

(** C10, as stated, fails.  A result that sits in the process-wide context
    is still there after any number of calls, and a later call whose chain
    sets no result returns it, not the empty result; and a value returned
    by one call does reach the next one, through an output port: after
    [Sample.echo] was called with [x = 7], a call of [Sample.replay], which
    is given no argument, returns 7. *)
Lemma later_call_sees_earlier_value :
  (no_set Tool (next Sample.probe) = true /\
   fst (handler Sample.probe [("x", VInt 3)]
          (serve [({| h_self := Sample.five |}, [])] Sample.stale)) =
     Ok (EVal (VStr "stale"))) /\
  (fst (handler Sample.replay [] Sample.serving) = Ok (EVal VNone) /\
   fst (handler Sample.replay []
          (serve [({| h_self := Sample.echo |}, [("x", VInt 7)])] Sample.serving)) =
     Ok (EVal (VInt 7))).
Proof. repeat split. Qed.

(** C10, amended: the result keys are written into the copy a call works
    on, never into the process-wide context, which no call changes; so
    after any calls whatsoever, a call whose chain completes without
    setting a result of its kind returns what the process-wide context
    held under the result key before all of them, the empty result when it
    held nothing there: nothing reaches a later call through the result
    key.  (Output ports are not part of the context; a value can reach a
    later call through them.) *)
Theorem results_do_not_leak
    (calls : list (Handler * list (string * Value)))
    (self : Define) (kwargs : list (string * Value)) (st : State) :
  ctx (serve calls st) = ctx st /\
  (no_set (kind self) (next self) = true ->
   fst (SubGraphExecutor_do (next self) (enter self kwargs (serve calls st))) = Ok tt ->
   fst (handler self kwargs (serve calls st)) =
     Ok match next self with
        | [] => EVal VNone
        | _ :: _ => default (EVal VNone) (ctx st !! result_key (kind self))
        end).
Proof.
  split; [apply serve_keeps_ctx |].
  intros Hno Hdone. rewrite (handler_no_set self kwargs _ Hdone Hno).
  rewrite serve_keeps_ctx. reflexivity.
Qed.

Lemma results_do_not_leak_witness :
  ctx (serve [({| h_self := Sample.five |}, []);
              ({| h_self := Sample.echo |}, [("x", VInt 7)])] Sample.serving) =
    ctx Sample.serving /\
  fst (handler Sample.probe [("x", VInt 3)]
         (serve [({| h_self := Sample.five |}, []);
                 ({| h_self := Sample.echo |}, [("x", VInt 7)])] Sample.serving)) =
    Ok (EVal VNone).
Proof.
  pose proof (results_do_not_leak
                [({| h_self := Sample.five |}, []);
                 ({| h_self := Sample.echo |}, [("x", VInt 7)])]
                Sample.probe [("x", VInt 3)] Sample.serving) as [Hctx Hresult].
  split; [exact Hctx | exact (Hresult eq_refl eq_refl)].
Defined.

(** ** Interleaved calls *)

Lemma set_ctx_back (st st' : State) :
  set_ctx (ctx st') (set_ctx (ctx st) st') = st'.
Proof. destruct st'. reflexivity. Qed.

Lemma step_keeps_ctx (i : Invocation) (st : State) :
  ctx (snd (step i st)) = ctx st.
Proof.
  unfold step. destruct (inv_phase i) as [| tool_ctx [| n rest] | r];
    try reflexivity.
  destruct (execute n (set_ctx tool_ctx st)) as [[[] | e] st']; reflexivity.
Qed.

Lemma solo_done (n : nat) (i : Invocation) (st : State) (r : Outcome Entry) :
  inv_phase i = Done r -> solo n i st = (i, st).
Proof.
  intros Hdone. induction n as [| n IH]; [reflexivity |].
  simpl. unfold step. rewrite Hdone. exact IH.
Qed.

(** A call left alone from the middle of its chain ends like the rest of
    the sequential run. *)
Lemma solo_running (rest : list Node) :
  forall (tool_ctx : gmap string Entry) (i : Invocation) (st : State) (n : nat),
    inv_phase i = Running tool_ctx rest ->
    length rest < n ->
    solo n i st =
      match SubGraphExecutor_do rest (set_ctx tool_ctx st) with
      | (Ok _, st1) =>
          (at_phase i (Done (Ok (default (EVal VNone)
                                   (ctx st1 !! result_key (kind (inv_self i)))))),
           set_ctx (ctx st) st1)
      | (Raise e, st1) => (at_phase i (Done (Raise e)), set_ctx (ctx st) st1)
      end.
Proof.
  induction rest as [| node rest IH]; intros tool_ctx i st n Hphase Hlen;
    (destruct n as [| n]; [simpl in Hlen; lia |]); simpl; unfold step;
    rewrite Hphase.
  - erewrite solo_done by reflexivity. destruct st. reflexivity.
  - unfold bind.
    destruct (execute node (set_ctx tool_ctx st)) as [[[] | e] st'].
    + erewrite (IH (ctx st')); [| reflexivity | simpl in Hlen; lia].
      simpl. rewrite set_ctx_back.
      destruct (SubGraphExecutor_do rest st') as [[[] | e] st1]; reflexivity.
    + erewrite solo_done by reflexivity. reflexivity.
Qed.

(** A call left alone for long enough is the handler function. *)
Lemma solo_handler (self : Define) (kwargs : list (string * Value)) (st : State) (n : nat) :
  length (next self) + 2 <= n ->
  solo n (invocation self kwargs) st =
    (at_phase (invocation self kwargs) (Done (fst (handler self kwargs st))),
     snd (handler self kwargs st)).
Proof.
  intros Hlen. destruct n as [| n]; [lia |].
  rewrite handler_eq. simpl. unfold step. simpl.
  destruct (next self) as [| node rest] eqn:Hnext.
  - erewrite solo_done by reflexivity. reflexivity.
  - erewrite (solo_running (node :: rest) (ctx st));
      [| reflexivity | simpl in *; lia].
    change (set_ctx (ctx st) (enter self kwargs st)) with (enter self kwargs st).
    simpl inv_self.
    destruct (SubGraphExecutor_do (node :: rest) (enter self kwargs st))
      as [[[] | e] st1]; reflexivity.
Qed.

(** A node fed by literals does the same to any two states that agree on
    the context. *)
Lemma execute_literal (n : Node) (st st' : State) :
  literal_node n = true ->
  ctx st = ctx st' ->
  fst (execute n st) = fst (execute n st') /\
  ctx (snd (execute n st)) = ctx (snd (execute n st')).
Proof.
  intros Hlit Hctx. destruct n as [a | a | a | c args key dflt].
  1-3: destruct a; [| discriminate Hlit]; simpl; rewrite Hctx; split; reflexivity.
  split.
  - destruct args as [va |], key as [vk |], dflt as [vd |]; try discriminate Hlit.
    simpl. unfold bind, read.
    destruct (truthy va); simpl; [| reflexivity].
    destruct (truthy vk); simpl; [| reflexivity].
    destruct va, vk; reflexivity.
  - rewrite (proj1 (keeps_get_argument c args key dflt st)).
    rewrite (proj1 (keeps_get_argument c args key dflt st')). exact Hctx.
Qed.

Lemma step_literal (i : Invocation) (st st' : State) :
  literal_invocation i = true ->
  ctx st = ctx st' ->
  fst (step i st) = fst (step i st') /\
  literal_invocation (fst (step i st)) = true.
Proof.
  unfold literal_invocation, step. intros Hlit Hctx.
  destruct (inv_phase i) as [| tool_ctx [| n rest] | r] eqn:Hphase; simpl.
  - rewrite Hctx. split; [reflexivity |].
    destruct (next (inv_self i)); [reflexivity | exact Hlit].
  - auto.
  - simpl in Hlit. apply andb_true_iff in Hlit as [Hn Hrest].
    destruct (execute_literal n (set_ctx tool_ctx st) (set_ctx tool_ctx st') Hn eq_refl)
      as [Hout Hnew].
    destruct (execute n (set_ctx tool_ctx st)) as [[[] | e] st1],
             (execute n (set_ctx tool_ctx st')) as [[[] | e'] st1'];
      simpl in *; try discriminate Hout.
    + rewrite Hnew. auto.
    + injection Hout as ->. auto.
  - rewrite Hphase. auto.
Qed.

Lemma interleave_keeps_ctx (sched : list bool) :
  forall (a b : Invocation) (st : State),
    ctx (snd (interleave sched a b st)) = ctx st.
Proof.
  induction sched as [| [|] sched IH]; intros a b st; simpl; [reflexivity | |].
  - pose proof (step_keeps_ctx a st) as Hstep.
    destruct (step a st) as [a' st']. rewrite IH. exact Hstep.
  - pose proof (step_keeps_ctx b st) as Hstep.
    destruct (step b st) as [b' st']. rewrite IH. exact Hstep.
Qed.

(** Under any schedule, a call fed by literals is where it would be had it
    taken the same number of statements alone. *)
Lemma interleave_first (sched : list bool) :
  forall (a b : Invocation) (st st2 : State),
    literal_invocation a = true ->
    ctx st = ctx st2 ->
    fst (fst (interleave sched a b st)) = fst (solo (turns sched) a st2).
Proof.
  induction sched as [| [|] sched IH]; intros a b st st2 Hlit Hctx; simpl;
    [reflexivity | |].
  - destruct (step_literal a st st2 Hlit Hctx) as [Hsame Hlit'].
    pose proof (step_keeps_ctx a st) as Hk. pose proof (step_keeps_ctx a st2) as Hk2.
    destruct (step a st) as [a' st'], (step a st2) as [a2 st2']. simpl in *.
    subst a2. apply IH; [exact Hlit' | congruence].
  - pose proof (step_keeps_ctx b st) as Hk.
    destruct (step b st) as [b' st']. simpl in *.
    apply IH; [exact Hlit | congruence].
Qed.

Lemma interleave_swap (sched : list bool) :
  forall (a b : Invocation) (st : State),
    interleave (map negb sched) b a st =
      (snd (fst (interleave sched a b st)),
       fst (fst (interleave sched a b st)),
       snd (interleave sched a b st)).
Proof.
  induction sched as [| [|] sched IH]; intros a b st; simpl; [reflexivity | |].
  - destruct (step a st) as [a' st']. apply IH.
  - destruct (step b st) as [b' st']. apply IH.
Qed.

(** C1, as stated, fails: two overlapping calls of the same tool, with
    [x = 1] and with [x = 2]; the second call enters after the first did and
    before the first one's chain reads its arguments, and the first call
    returns the other one's argument. *)
Lemma overlapping_calls_share_args :
  fst (handler Sample.echo [("x", VInt 1)] Sample.serving) = Ok (EVal (VInt 1)) /\
  inv_phase (fst (fst (interleave
      [true; false; true; true; true; false; false; false]
      (invocation Sample.echo [("x", VInt 1)])
      (invocation Sample.echo [("x", VInt 2)])
      Sample.serving))) = Done (Ok (EVal (VInt 2))).
Proof. split; reflexivity. Qed.

(** C1, amended: each call runs its chain against a copy of the
    process-wide context made when the call starts.  Under every schedule
    of two overlapping calls the process-wide context is never written,
    and a call whose chain takes its inputs from literals ends with the
    result it has when it runs alone, whatever the other call does.  (The
    argument mapping and the caller handle are not in the copy: they are
    written to output ports of the defining component, which all calls of
    the handler share.) *)
Theorem context_isolation
    (a b : Define) (kwargs_a kwargs_b : list (string * Value))
    (sched : list bool) (st : State) :
  ctx (snd (interleave sched (invocation a kwargs_a) (invocation b kwargs_b) st)) =
    ctx st /\
  (literal_chain (next a) = true ->
   length (next a) + 2 <= turns sched ->
   inv_phase (fst (fst (interleave sched (invocation a kwargs_a)
                          (invocation b kwargs_b) st))) =
     Done (fst (handler a kwargs_a st))) /\
  (literal_chain (next b) = true ->
   length (next b) + 2 <= turns (map negb sched) ->
   inv_phase (snd (fst (interleave sched (invocation a kwargs_a)
                          (invocation b kwargs_b) st))) =
     Done (fst (handler b kwargs_b st))).
Proof.
  split; [apply interleave_keeps_ctx |]. split.
  - intros Hlit Hlen.
    rewrite (interleave_first sched (invocation a kwargs_a) _ st st Hlit eq_refl).
    rewrite (solo_handler a kwargs_a st _ Hlen). reflexivity.
  - intros Hlit Hlen.
    pose proof (interleave_swap sched (invocation a kwargs_a)
                  (invocation b kwargs_b) st) as Hswap.
    apply (f_equal (fun r => fst (fst r))) in Hswap. simpl in Hswap.
    rewrite <- Hswap.
    rewrite (interleave_first (map negb sched) (invocation b kwargs_b) _ st st
               Hlit eq_refl).
    rewrite (solo_handler b kwargs_b st _ Hlen). reflexivity.
Qed.

Lemma context_isolation_witness :
  ctx (snd (interleave [true; false; true; false; true; false; true; false]
              (invocation Sample.five [("x", VInt 1)])
              (invocation Sample.echo [("x", VInt 2)])
              Sample.serving)) = ctx Sample.serving /\
  inv_phase (fst (fst (interleave [true; false; true; false; true; false; true; false]
                         (invocation Sample.five [("x", VInt 1)])
                         (invocation Sample.echo [("x", VInt 2)])
                         Sample.serving))) =
    Done (fst (handler Sample.five [("x", VInt 1)] Sample.serving)).
Proof.
  pose proof (context_isolation Sample.five Sample.echo
                [("x", VInt 1)] [("x", VInt 2)]
                [true; false; true; false; true; false; true; false]
                Sample.serving) as (Hctx & Hfirst & _).
  split; [exact Hctx |]. apply Hfirst; [reflexivity | simpl; lia].
Defined.

(** * Further properties *)

(** ** Registration order and deferred components *)

Lemma pending_key_inj (k k' : HandlerKind) : pending_key k = pending_key k' -> k = k'.
Proof. destruct k, k'; intros H; try reflexivity; discriminate H. Qed.

Lemma of_kind_spec (k : HandlerKind) (c : Define) : of_kind k c = true <-> k = kind c.
Proof.
  unfold of_kind. destruct k, (kind c); split; intros H;
    try reflexivity; discriminate H.
Qed.

(** Appending a component to the pending list of its kind, seen from the
    list of any kind. *)
Lemma pending_append (k : HandlerKind) (self : Define) (c : gmap string Entry) :
  pending k (<[pending_key (kind self) :=
                 EComps (pending (kind self) c ++ [self])]> c) =
  pending k c ++ filter (of_kind k) [self].
Proof.
  unfold pending at 1.
  destruct (decide (pending_key (kind self) = pending_key k)) as [Heq | Hne].
  - rewrite Heq, lookup_insert_eq. apply pending_key_inj in Heq. subst k.
    rewrite filter_cons_True by (apply Is_true_true, of_kind_spec; reflexivity).
    reflexivity.
  - rewrite lookup_insert_ne by exact Hne.
    rewrite filter_cons_False.
    + rewrite app_nil_r. reflexivity.
    + intros Hk. apply Is_true_true, of_kind_spec in Hk. congruence.
Qed.

Lemma registrations_bind_to_any (k : HandlerKind) (self : Define) (srv : FastMCP) :
  registrations k (bind_to self srv) =
  registrations k srv ++ map registration (filter (of_kind k) [self]).
Proof.
  unfold bind_to, of_kind, filter, list_filter.
  destruct k, (kind self) eqn:Hk; simpl; rewrite ?Hk; simpl;
    rewrite ?app_nil_r; reflexivity.
Qed.

Lemma well_formed_append (self : Define) (st st' : State) :
  well_formed st ->
  ctx st' = <[pending_key (kind self) :=
                EComps (pending (kind self) (ctx st) ++ [self])]> (ctx st) ->
  (forall sid srv, servers st !! sid = Some srv -> exists srv', servers st' !! sid = Some srv') ->
  well_formed st'.
Proof.
  intros [Hs Hp] Hctx Hheap. split.
  - intros e. rewrite Hctx, lookup_insert_ne by apply pending_key_not_server.
    intros He. destruct (Hs e He) as (sid & srv & -> & Hsid).
    destruct (Hheap sid srv Hsid) as [srv' Hsrv']. eauto.
  - intros k e. rewrite Hctx.
    destruct (decide (pending_key (kind self) = pending_key k)) as [Heq | Hne].
    + rewrite Heq, lookup_insert_eq. intros [= <-]. eauto.
    + rewrite lookup_insert_ne by exact Hne. apply Hp.
Qed.

(** One [init] with a server in the context that takes the call. *)
Lemma init_present (self : Define) (st : State) (srv : FastMCP) :
  well_formed st ->
  server_of st = Some srv ->
  rejects st (kind self) (registration self) srv = None ->
  fst (init self st) = Ok tt /\
  well_formed (snd (init self st)) /\
  server_of (snd (init self st)) = Some (bind_to self srv) /\
  ctx (snd (init self st)) =
    <[pending_key (kind self) :=
        EComps (pending (kind self) (ctx st) ++ [self])]> (ctx st) /\
  stdout (snd (init self st)) = stdout st ++ [registered_line self] /\
  rejects (snd (init self st)) = rejects st.
Proof.
  intros Hwf Hsrv Haccept.
  destruct (init_bound self st srv Hwf Hsrv Haccept)
    as (Hok & Hwf' & Hsrv' & _ & Hout & Hsame).
  repeat split; try assumption; try apply Hwf'.
  destruct (server_of_inv st srv Hsrv) as (sid & Hkey & Hheap).
  rewrite (init_with_server self st (proj2 Hwf (kind self)) sid srv Hkey Hheap Haccept).
  reflexivity.
Qed.

(** One [init] without a server in the context. *)
Lemma init_absent (self : Define) (st : State) :
  well_formed st ->
  ctx st !! MCP_SERVER_KEY = None ->
  fst (init self st) = Ok tt /\
  well_formed (snd (init self st)) /\
  ctx (snd (init self st)) !! MCP_SERVER_KEY = None /\
  ctx (snd (init self st)) =
    <[pending_key (kind self) :=
        EComps (pending (kind self) (ctx st) ++ [self])]> (ctx st) /\
  servers (snd (init self st)) = servers st /\
  stdout (snd (init self st)) = stdout st ++ [warning_line self].
Proof.
  intros Hwf Hnone.
  rewrite (init_without_server self st (proj2 Hwf (kind self)) Hnone). simpl.
  split; [reflexivity |]. split; [| split; [| auto]].
  - apply (well_formed_append self st); [exact Hwf | reflexivity |]. simpl. eauto.
  - rewrite lookup_insert_ne by apply pending_key_not_server. exact Hnone.
Qed.

(** X1: a component whose [init] runs before any server exists is only
    recorded: [init] returns normally, prints the warning, appends the
    component to the pending list of its kind and leaves the other lists
    and every server object alone. *)
Theorem init_without_server_defers (self : Define) (st : State) :
  well_formed st ->
  ctx st !! MCP_SERVER_KEY = None ->
  fst (init self st) = Ok tt /\
  (forall k, pending k (ctx (snd (init self st))) =
             pending k (ctx st) ++ filter (of_kind k) [self]) /\
  server_of (snd (init self st)) = None /\
  servers (snd (init self st)) = servers st /\
  stdout (snd (init self st)) = stdout st ++ [warning_line self].
Proof.
  intros Hwf Hnone.
  destruct (init_absent self st Hwf Hnone) as (Hok & _ & Hkey & Hctx & Hheap & Hout).
  split; [exact Hok |]. split; [| split; [| auto]].
  - intros k. rewrite Hctx. apply pending_append.
  - unfold server_of. rewrite Hkey. reflexivity.
Qed.

Lemma fresh_well_formed : well_formed Sample.fresh.
Proof.
  split.
  - intros e He. vm_compute in He. discriminate He.
  - intros k e He. destruct k; vm_compute in He; discriminate He.
Defined.

Lemma init_without_server_defers_witness :
  fst (init Sample.five Sample.fresh) = Ok tt /\
  (forall k, pending k (ctx (snd (init Sample.five Sample.fresh))) =
             pending k (ctx Sample.fresh) ++ filter (of_kind k) [Sample.five]) /\
  server_of (snd (init Sample.five Sample.fresh)) = None /\
  servers (snd (init Sample.five Sample.fresh)) = servers Sample.fresh /\
  stdout (snd (init Sample.five Sample.fresh)) =
    stdout Sample.fresh ++ [warning_line Sample.five].
Proof.
  apply (init_without_server_defers Sample.five Sample.fresh).
  - exact fresh_well_formed.
  - reflexivity.
Defined.

Lemma init_refused_ctx (self : Define) (st : State) (srv : FastMCP) (exn : Exn) :
  well_formed st ->
  server_of st = Some srv ->
  rejects st (kind self) (registration self) srv = Some exn ->
  ctx (snd (init self st)) =
    <[pending_key (kind self) :=
        EComps (pending (kind self) (ctx st) ++ [self])]> (ctx st).
Proof.
  intros Hwf Hsrv Hrefuse.
  destruct (server_of_inv st srv Hsrv) as (sid & Hkey & Hheap).
  rewrite (init_with_server_refused self st (proj2 Hwf (kind self)) sid srv exn
             Hkey Hheap Hrefuse).
  reflexivity.
Qed.

(** A well-formed context either has no server or refers to one. *)
Lemma well_formed_server (st : State) :
  well_formed st ->
  ctx st !! MCP_SERVER_KEY = None \/ exists srv, server_of st = Some srv.
Proof.
  intros [Hs _]. destruct (ctx st !! MCP_SERVER_KEY) as [e |] eqn:Hkey; [| auto].
  right. destruct (Hs e eq_refl) as (sid & srv & -> & Hheap).
  exists srv. unfold server_of. rewrite Hkey. exact Hheap.
Qed.

(** X2: the pending lists keep registration order.  While no server
    exists, initialising components one after the other raises nothing;
    and whenever such a run returns normally, with or without a server, it
    has extended the pending list of each kind by the components of that
    kind, in the order they were initialised. *)
Theorem init_all_keeps_order (cs : list Define) (st : State) :
  well_formed st ->
  (ctx st !! MCP_SERVER_KEY = None -> fst (init_all cs st) = Ok tt) /\
  (fst (init_all cs st) = Ok tt ->
   forall k, pending k (ctx (snd (init_all cs st))) =
             pending k (ctx st) ++ filter (of_kind k) cs).
Proof.
  revert st. induction cs as [| c cs IH]; intros st Hwf.
  - simpl. split; [reflexivity |]. intros _ k. rewrite app_nil_r. reflexivity.
  - assert (forall k post, 
              post = pending k (<[pending_key (kind c) :=
                        EComps (pending (kind c) (ctx st) ++ [c])]> (ctx st)) ++
                     filter (of_kind k) cs ->
              post = pending k (ctx st) ++ filter (of_kind k) (c :: cs)) as Hshape.
    { intros k post ->. rewrite pending_append, <- app_assoc.
      f_equal. symmetry. apply (filter_app _ [c] cs). }
    destruct (well_formed_server st Hwf) as [Hnone | [srv Hsrv]].
    + destruct (init_absent c st Hwf Hnone) as (Hok & Hwf' & Hnone' & Hctx & _).
      simpl. unfold bind. destruct (init c st) as [[[] | e] st1]; simpl in *;
        [| discriminate Hok].
      destruct (IH st1 Hwf') as [Hruns Horder].
      split; [intros _; apply Hruns, Hnone' |].
      intros Hdone k. apply Hshape. rewrite <- Hctx. apply Horder, Hdone.
    + split.
      { intros Hnone. unfold server_of in Hsrv. rewrite Hnone in Hsrv.
        discriminate Hsrv. }
      destruct (rejects st (kind c) (registration c) srv) as [exn |] eqn:Hfate.
      * destruct (init_refused c st srv exn Hwf Hsrv Hfate) as (Hraise & _).
        simpl. unfold bind. destruct (init c st) as [[[] | e] st1]; simpl in *;
          [discriminate Hraise | discriminate].
      * destruct (init_present c st srv Hwf Hsrv Hfate) as (Hok & Hwf' & _ & Hctx & _).
        simpl. unfold bind. destruct (init c st) as [[[] | e] st1]; simpl in *;
          [| discriminate Hok].
        destruct (IH st1 Hwf') as [_ Horder].
        intros Hdone k. apply Hshape. rewrite <- Hctx. apply Horder, Hdone.
Qed.

Lemma init_all_keeps_order_witness :
  fst (init_all [Sample.five; Sample.silent; Sample.echo] Sample.fresh) = Ok tt /\
  (forall k,
     pending k (ctx (snd (init_all [Sample.five; Sample.silent; Sample.echo]
                            Sample.fresh))) =
     pending k (ctx Sample.fresh) ++
       filter (of_kind k) [Sample.five; Sample.silent; Sample.echo]) /\
  (forall k,
     pending k (ctx (snd (init_all [Sample.five; Sample.silent; Sample.echo]
                            Sample.serving))) =
     pending k (ctx Sample.serving) ++
       filter (of_kind k) [Sample.five; Sample.silent; Sample.echo]).
Proof.
  pose proof (init_all_keeps_order [Sample.five; Sample.silent; Sample.echo]
                Sample.fresh fresh_well_formed) as [Hruns Horder].
  pose proof (init_all_keeps_order [Sample.five; Sample.silent; Sample.echo]
                Sample.serving serving_well_formed) as [_ Horder'].
  split; [exact (Hruns eq_refl) |].
  split; [exact (Horder (Hruns eq_refl)) | exact (Horder' eq_refl)].
Defined.

Lemma registrations_bind_all (k : HandlerKind) (cs : list Define) (srv : FastMCP) :
  registrations k (bind_all cs srv) =
  registrations k srv ++ map registration (filter (of_kind k) cs).
Proof.
  revert srv. induction cs as [| c cs IH]; intros srv.
  - simpl. rewrite app_nil_r. reflexivity.
  - unfold bind_all in *. simpl. rewrite IH, registrations_bind_to_any, <- app_assoc.
    f_equal. rewrite <- map_app. f_equal. symmetry. apply (filter_app _ [c] cs).
Qed.

(** X3: the server receives its registration calls in initialisation
    order.  With a server in a well-formed context and a package that
    takes each of the calls, initialising components one after the other
    returns normally, registers, for each kind, the handlers of the
    components of that kind after those already registered and in the
    order of initialisation, and prints one line per component. *)
Theorem init_all_registers_in_order (cs : list Define) (st : State) (srv : FastMCP) :
  well_formed st ->
  server_of st = Some srv ->
  accepts_all (rejects st) cs srv ->
  fst (init_all cs st) = Ok tt /\
  server_of (snd (init_all cs st)) = Some (bind_all cs srv) /\
  (forall k, registrations k (bind_all cs srv) =
             registrations k srv ++ map registration (filter (of_kind k) cs)) /\
  stdout (snd (init_all cs st)) = stdout st ++ map registered_line cs.
Proof.
  intros Hwf Hsrv Hall.
  split; [| split; [| split; [intros k; apply registrations_bind_all |]]];
    revert st srv Hwf Hsrv Hall;
    (induction cs as [| c cs IH]; intros st srv Hwf Hsrv Hall;
     [simpl; rewrite ?app_nil_r; auto |]);
    destruct Hall as [Hfate Hall];
    destruct (init_present c st srv Hwf Hsrv Hfate)
      as (Hok & Hwf' & Hsrv' & _ & Hout & Hsame);
    simpl; unfold bind; destruct (init c st) as [[[] | e] st1]; simpl in *;
    try discriminate Hok; rewrite <- Hsame in Hall.
  - apply (IH st1 (bind_to c srv) Hwf' Hsrv' Hall).
  - apply (IH st1 (bind_to c srv) Hwf' Hsrv' Hall).
  - rewrite (IH st1 (bind_to c srv) Hwf' Hsrv' Hall), Hout, <- app_assoc.
    reflexivity.
Qed.

Lemma init_all_registers_in_order_witness :
  fst (init_all [Sample.five; Sample.silent; Sample.echo] Sample.serving) = Ok tt /\
  server_of (snd (init_all [Sample.five; Sample.silent; Sample.echo]
                    Sample.serving)) =
    Some (bind_all [Sample.five; Sample.silent; Sample.echo]
            {| srv_name := "s"; srv_dependencies := [];
               srv_tools := []; srv_resources := []; srv_prompts := [] |}) /\
  (forall k,
     registrations k
       (bind_all [Sample.five; Sample.silent; Sample.echo]
          {| srv_name := "s"; srv_dependencies := [];
             srv_tools := []; srv_resources := []; srv_prompts := [] |}) =
     registrations k
       {| srv_name := "s"; srv_dependencies := [];
          srv_tools := []; srv_resources := []; srv_prompts := [] |} ++
     map registration
       (filter (of_kind k) [Sample.five; Sample.silent; Sample.echo])) /\
  stdout (snd (init_all [Sample.five; Sample.silent; Sample.echo] Sample.serving)) =
    stdout Sample.serving ++
      map registered_line [Sample.five; Sample.silent; Sample.echo].
Proof.
  apply (init_all_registers_in_order
           [Sample.five; Sample.silent; Sample.echo] Sample.serving).
  - exact serving_well_formed.
  - reflexivity.
  - simpl. repeat split.
Defined.

(** X22: a refused registration stops the run.  When the package takes
    the calls of the first components and raises on the next one, the
    exception leaves the whole run: the components before it are
    registered, the refused one has joined its pending list without being
    registered, and the components after it are not initialised at all. *)
Theorem init_all_stops_at_refusal
    (pre post : list Define) (c : Define) (st : State) (srv : FastMCP) (exn : Exn) :
  well_formed st ->
  server_of st = Some srv ->
  accepts_all (rejects st) pre srv ->
  rejects st (kind c) (registration c) (bind_all pre srv) = Some exn ->
  fst (init_all (pre ++ c :: post) st) = Raise exn /\
  server_of (snd (init_all (pre ++ c :: post) st)) = Some (bind_all pre srv) /\
  forall k, pending k (ctx (snd (init_all (pre ++ c :: post) st))) =
            pending k (ctx st) ++ filter (of_kind k) (pre ++ [c]).
Proof.
  revert st srv. induction pre as [| p pre IH]; intros st srv Hwf Hsrv Hall Hrefuse.
  - simpl in *.
    destruct (init_refused c st srv exn Hwf Hsrv Hrefuse) as (Hraise & _ & Hsrv' & _).
    pose proof (init_refused_ctx c st srv exn Hwf Hsrv Hrefuse) as Hctx.
    unfold bind. destruct (init c st) as [[[] | e] st1]; simpl in *;
      [discriminate Hraise |].
    split; [exact Hraise |]. split; [exact Hsrv' |].
    intros k. rewrite Hctx. apply pending_append.
  - destruct Hall as [Hfate Hall].
    destruct (init_present p st srv Hwf Hsrv Hfate)
      as (Hok & Hwf' & Hsrv' & Hctx & _ & Hsame).
    simpl. unfold bind. destruct (init p st) as [[[] | e] st1]; simpl in *;
      [| discriminate Hok].
    rewrite <- Hsame in Hall, Hrefuse.
    destruct (IH st1 (bind_to p srv) Hwf' Hsrv' Hall Hrefuse) as (Hraise & Hsrv2 & Hpend).
    split; [exact Hraise |]. split; [exact Hsrv2 |].
    intros k. rewrite Hpend, Hctx, pending_append, <- app_assoc.
    f_equal. symmetry. apply (filter_app _ [p] (pre ++ [c])).
Qed.

Lemma init_all_stops_at_refusal_witness :
  fst (init_all [Sample.five; Sample.five; Sample.echo] Sample.strict) =
    Raise (KeyError "five") /\
  server_of (snd (init_all [Sample.five; Sample.five; Sample.echo] Sample.strict)) =
    Some (bind_all [Sample.five]
            {| srv_name := "s"; srv_dependencies := [];
               srv_tools := []; srv_resources := []; srv_prompts := [] |}) /\
  forall k,
    pending k (ctx (snd (init_all [Sample.five; Sample.five; Sample.echo]
                           Sample.strict))) =
    pending k (ctx Sample.strict) ++
      filter (of_kind k) ([Sample.five] ++ [Sample.five]).
Proof.
  apply (init_all_stops_at_refusal [Sample.five] [Sample.echo] Sample.five
           Sample.strict
           {| srv_name := "s"; srv_dependencies := [];
              srv_tools := []; srv_resources := []; srv_prompts := [] |}
           (KeyError "five")).
  - exact strict_well_formed.
  - reflexivity.
  - simpl. split; [reflexivity | exact I].
  - reflexivity.
Defined.

(** X4: when the pending key of a component's kind holds something that is
    not a list, [init] raises [AttributeError] at the append: the context
    and the server objects are left as they were and nothing is
    registered, even with a server present. *)
Theorem init_pending_not_a_list (self : Define) (st : State) (e : Entry) :
  ctx st !! pending_key (kind self) = Some e ->
  (forall l, e <> EComps l) ->
  fst (init self st) = Raise AttributeError /\
  ctx (snd (init self st)) = ctx st /\
  servers (snd (init self st)) = servers st.
Proof.
  intros He Hnot. unfold init, bind, ctx_has.
  destruct (ctx st !! MCP_SERVER_KEY) as [srv |] eqn:Hkey; simpl;
    unfold setdefault_append, bind, get_state; simpl; rewrite He;
    destruct e as [v | sid | l]; try (exfalso; apply (Hnot l); reflexivity);
    simpl; auto.
Qed.

Lemma init_pending_not_a_list_witness :
  fst (init Sample.five Sample.clobbered) = Raise AttributeError /\
  ctx (snd (init Sample.five Sample.clobbered)) = ctx Sample.clobbered /\
  servers (snd (init Sample.five Sample.clobbered)) = servers Sample.clobbered.
Proof.
  apply (init_pending_not_a_list Sample.five Sample.clobbered (EVal (VStr "five"))).
  - reflexivity.
  - intros l H. discriminate H.
Defined.

(** ** More on server creation *)

(** X5: creating a server again does not move anything over.  Whatever was
    registered before, after [MCPCreateServer.execute] the context refers
    to a new server that has received no registration call; the server
    objects that existed before, with their registrations, are still on
    the heap, unchanged, and the pending lists are what they were. *)
Theorem createServer_again_starts_empty (self : MCPCreateServer.t) (st : State) :
  sdk_installed st = true ->
  fst (MCPCreateServer.execute self st) = Ok tt /\
  (exists srv,
     server_of (snd (MCPCreateServer.execute self st)) = Some srv /\
     forall k, registrations k srv = []) /\
  (forall sid old, servers st !! sid = Some old ->
     servers (snd (MCPCreateServer.execute self st)) !! sid = Some old) /\
  (forall k, pending k (ctx (snd (MCPCreateServer.execute self st))) =
             pending k (ctx st)).
Proof.
  intros Hsdk.
  destruct (createServer_registers_nothing self st Hsdk) as [Hnew Hpend].
  destruct (execute_installed self st Hsdk) as [out Hexec].
  split; [rewrite Hexec; reflexivity |]. split; [exact Hnew |].
  split; [| exact Hpend].
  intros sid old Hold. rewrite Hexec. simpl.
  apply lookup_app_l_Some, Hold.
Qed.

Lemma createServer_again_starts_empty_witness :
  fst (MCPCreateServer.execute Sample.create_unnamed
         (snd (init Sample.five Sample.serving))) = Ok tt /\
  (exists srv,
     server_of (snd (MCPCreateServer.execute Sample.create_unnamed
                       (snd (init Sample.five Sample.serving)))) = Some srv /\
     forall k, registrations k srv = []) /\
  (forall sid old,
     servers (snd (init Sample.five Sample.serving)) !! sid = Some old ->
     servers (snd (MCPCreateServer.execute Sample.create_unnamed
                     (snd (init Sample.five Sample.serving)))) !! sid = Some old) /\
  (forall k,
     pending k (ctx (snd (MCPCreateServer.execute Sample.create_unnamed
                            (snd (init Sample.five Sample.serving))))) =
     pending k (ctx (snd (init Sample.five Sample.serving)))).
Proof.
  apply (createServer_again_starts_empty Sample.create_unnamed
           (snd (init Sample.five Sample.serving))).
  reflexivity.
Defined.

(** X6: what [MCPCreateServer.execute] prints with the SDK present: the
    line naming the server (the given name, or the default one), followed
    by the line listing the dependencies, comma separated, exactly when
    there are dependencies. *)
Theorem createServer_output (self : MCPCreateServer.t) (st : State) :
  sdk_installed st = true ->
  stdout (snd (MCPCreateServer.execute self st)) =
    stdout st ++
    Print ("Created MCP server: " ++
           if truthy_str (MCPCreateServer.server_name self)
           then str_opt (MCPCreateServer.server_name self)
           else "xircuits-mcp-server") ::
    match MCPCreateServer.dependencies self with
    | None | Some [] => []
    | Some deps => [Print ("With dependencies: " ++ String.concat ", " deps)]
    end.
Proof.
  intros Hsdk. unfold MCPCreateServer.execute, bind, get_state. rewrite Hsdk.
  simpl.
  destruct (truthy_str (MCPCreateServer.server_name self));
    destruct (MCPCreateServer.dependencies self) as [[| d deps] |];
    simpl; rewrite <- ?app_assoc; reflexivity.
Qed.

Lemma createServer_output_witness :
  stdout (snd (MCPCreateServer.execute Sample.create_unnamed Sample.fresh)) =
    [Print "Created MCP server: xircuits-mcp-server";
     Print "With dependencies: httpx, pandas"].
Proof.
  apply (createServer_output Sample.create_unnamed Sample.fresh). reflexivity.
Defined.

(** ** MCPRunServer *)

(** A [try] whose [except] clause only prints ends normally. *)
Lemma try_print_ok (body : M unit) (prefix : string) (st : State) :
  fst (try_except body (fun e => print (PrintExn prefix e)) st) = Ok tt.
Proof.
  unfold try_except. destruct (body st) as [[[] | e] st1]; reflexivity.
Qed.

(** X7: [MCPRunServer.execute] never raises and registers nothing: on
    every state it returns normally and leaves the context and the server
    objects as they were; every failure inside is caught and printed. *)
Theorem runServer_never_raises (st : State) :
  fst (MCPRunServer.execute st) = Ok tt /\
  ctx (snd (MCPRunServer.execute st)) = ctx st /\
  servers (snd (MCPRunServer.execute st)) = servers st.
Proof.
  split; [| apply runServer_registers_nothing].
  unfold MCPRunServer.execute, bind, ctx_has, ctx_item.
  destruct (ctx st !! MCP_SERVER_KEY) as [e |] eqn:Hkey; simpl;
    rewrite ?Hkey; [| reflexivity].
  apply try_print_ok.
Qed.

(** Without a server in the context [MCPRunServer.execute] does
    nothing but print its error line. *)
Theorem runServer_without_server (st : State) :
  ctx st !! MCP_SERVER_KEY = None ->
  MCPRunServer.execute st =
    (Ok tt,
     set_stdout (stdout st ++
       [Print "Error: MCP server not found in context. Please create a server first."])
       st).
Proof.
  intros Hnone. unfold MCPRunServer.execute, bind, ctx_has. rewrite Hnone.
  reflexivity.
Qed.

Lemma runServer_without_server_witness :
  MCPRunServer.execute Sample.fresh =
    (Ok tt,
     set_stdout
       [Print "Error: MCP server not found in context. Please create a server first."]
       Sample.fresh).
Proof. apply (runServer_without_server Sample.fresh). reflexivity. Defined.

(** ** MCPGetArgument *)

Lemma read_eq (a : InArg) (st : State) : read a st = (Ok (value_of a st), st).
Proof. destruct a; reflexivity. Qed.

(** [MCPGetArgument.execute] on the values its three ports deliver. *)
Lemma get_argument_eq (c : nat) (args key dflt : InArg) (st : State) :
  execute (MCPGetArgument c args key dflt) st =
    if negb (truthy (value_of args st)) then
      (Ok tt,
       set_ports (<[(c, "value") := value_of dflt st]> (ports st))
         (set_stdout (stdout st ++ [Print "Warning: Args dictionary is empty or None"]) st))
    else if negb (truthy (value_of key st)) then
      (Ok tt, set_stdout (stdout st ++ [Print "Error: Key is required"]) st)
    else
      match fst (py_get (value_of args st) (value_of key st) (value_of dflt st) st) with
      | Ok v => (Ok tt, set_ports (<[(c, "value") := v]> (ports st)) st)
      | Raise e => (Raise e, st)
      end.
Proof.
  simpl. unfold bind. rewrite !read_eq.
  destruct (truthy (value_of args st)); simpl; [| reflexivity].
  destruct (truthy (value_of key st)); simpl; [| reflexivity].
  destruct (value_of args st), (value_of key st); reflexivity.
Qed.

Lemma dict_get_present (items : list (string * Value)) (k : string) (v d : Value) :
  NoDup (dict_keys items) -> (k, v) ∈ items -> dict_get items k d = v.
Proof.
  induction items as [| [k' v'] items IH]; intros Hnodup Hin.
  - inversion Hin.
  - simpl. apply NoDup_cons in Hnodup as [Hfresh Hnodup].
    destruct (String.eqb_spec k' k) as [-> | Hne].
    + apply elem_of_cons in Hin as [[= ->] | Hin]; [reflexivity |].
      exfalso. apply Hfresh. unfold dict_keys.
      apply list_elem_of_fmap. exists (k, v). auto.
    + apply elem_of_cons in Hin as [[= -> ->] | Hin]; [congruence |].
      apply IH; assumption.
Qed.

Lemma dict_get_absent (items : list (string * Value)) (k : string) (d : Value) :
  k ∉ dict_keys items -> dict_get items k d = d.
Proof.
  induction items as [| [k' v'] items IH]; intros Hnot; [reflexivity |].
  simpl. destruct (String.eqb_spec k' k) as [-> | Hne].
  - exfalso. apply Hnot. left.
  - apply IH. intros Hin. apply Hnot. right. exact Hin.
Qed.

(** X8: [MCPGetArgument] on a non-empty dict and a non-empty string key
    looks the key up: it returns normally, prints nothing, writes the
    value stored under the key to its [value] port when the dict has the
    key, and the default when it has not; no other port, and nothing of
    the context, changes. *)
Theorem get_argument_looks_up
    (c : nat) (args key dflt : InArg) (st : State)
    (items : list (string * Value)) (k : string) :
  value_of args st = VDict items ->
  items <> [] ->
  NoDup (dict_keys items) ->
  value_of key st = VStr k ->
  k <> "" ->
  fst (execute (MCPGetArgument c args key dflt) st) = Ok tt /\
  (forall v, (k, v) ∈ items ->
     ports (snd (execute (MCPGetArgument c args key dflt) st)) !! (c, "value") = Some v) /\
  (k ∉ dict_keys items ->
     ports (snd (execute (MCPGetArgument c args key dflt) st)) !! (c, "value") =
       Some (value_of dflt st)) /\
  (forall q, q <> (c, "value") ->
     ports (snd (execute (MCPGetArgument c args key dflt) st)) !! q = ports st !! q) /\
  stdout (snd (execute (MCPGetArgument c args key dflt) st)) = stdout st /\
  ctx (snd (execute (MCPGetArgument c args key dflt) st)) = ctx st.
Proof.
  intros Hargs Hne Hnodup Hkey Hk. rewrite get_argument_eq, Hargs, Hkey.
  assert (truthy (VDict items) = true) as -> by (destruct items; [congruence | reflexivity]).
  assert (truthy (VStr k) = true) as ->.
  { simpl. destruct (String.eqb_spec k ""); [congruence | reflexivity]. }
  simpl. split; [reflexivity |]. split; [| split; [| split; [| split]]].
  - intros v Hin. rewrite lookup_insert_eq.
    rewrite (dict_get_present items k v _ Hnodup Hin). reflexivity.
  - intros Hnot. rewrite lookup_insert_eq, (dict_get_absent items k _ Hnot).
    reflexivity.
  - intros q Hq. apply lookup_insert_ne. congruence.
  - reflexivity.
  - reflexivity.
Qed.

Lemma get_argument_looks_up_witness :
  fst (execute (MCPGetArgument 5 (Lit (VDict [("x", VInt 1); ("y", VInt 2)]))
                  (Lit (VStr "y")) (Lit VNone)) Sample.fresh) = Ok tt /\
  ports (snd (execute (MCPGetArgument 5 (Lit (VDict [("x", VInt 1); ("y", VInt 2)]))
                         (Lit (VStr "y")) (Lit VNone)) Sample.fresh)) !! (5, "value") =
    Some (VInt 2).
Proof.
  pose proof (get_argument_looks_up 5 (Lit (VDict [("x", VInt 1); ("y", VInt 2)]))
                (Lit (VStr "y")) (Lit VNone) Sample.fresh
                [("x", VInt 1); ("y", VInt 2)] "y" eq_refl) as H.
  destruct H as (Hok & Hpresent & _).
  - discriminate.
  - apply NoDup_cons. split; [| apply NoDup_singleton].
    intros Hin. apply list_elem_of_singleton in Hin. discriminate Hin.
  - reflexivity.
  - discriminate.
  - split; [exact Hok |]. apply Hpresent. right. left.
Defined.

(** X9: the check for missing arguments comes first.  Whenever the
    [args] port delivers something false ([None], an empty dict, an empty
    string, 0, [False]), [MCPGetArgument] returns normally, prints the
    warning and writes the default to its [value] port, whatever the key
    is, even a missing one. *)
Theorem get_argument_no_args (c : nat) (args key dflt : InArg) (st : State) :
  truthy (value_of args st) = false ->
  execute (MCPGetArgument c args key dflt) st =
    (Ok tt,
     set_ports (<[(c, "value") := value_of dflt st]> (ports st))
       (set_stdout (stdout st ++ [Print "Warning: Args dictionary is empty or None"]) st)).
Proof. intros Hfalse. rewrite get_argument_eq, Hfalse. reflexivity. Qed.

Lemma get_argument_no_args_witness :
  execute (MCPGetArgument 5 (Lit (VDict [])) (Lit VNone) (Lit (VStr "d"))) Sample.fresh =
    (Ok tt,
     set_ports (<[(5, "value") := VStr "d"]> (ports Sample.fresh))
       (set_stdout (stdout Sample.fresh ++
                      [Print "Warning: Args dictionary is empty or None"]) Sample.fresh)).
Proof.
  apply (get_argument_no_args 5 (Lit (VDict [])) (Lit VNone) (Lit (VStr "d")) Sample.fresh).
  reflexivity.
Defined.

(** X10: when [MCPGetArgument] raises.  It raises exactly when the [args]
    port delivers something true and the [key] port something true, and
    either the arguments are not a dict ([AttributeError]: no [get]) or
    they are a dict and the key is one too ([TypeError]: unhashable); a
    failing [MCPGetArgument] leaves the whole state as it was. *)
Theorem get_argument_raises_iff (c : nat) (args key dflt : InArg) (st : State) (e : Exn) :
  (fst (execute (MCPGetArgument c args key dflt) st) = Raise e <->
   truthy (value_of args st) = true /\
   truthy (value_of key st) = true /\
   ((forall items, value_of args st <> VDict items) /\ e = AttributeError \/
    (exists items items', value_of args st = VDict items /\
                          value_of key st = VDict items') /\ e = TypeError)) /\
  (fst (execute (MCPGetArgument c args key dflt) st) = Raise e ->
   snd (execute (MCPGetArgument c args key dflt) st) = st).
Proof.
  rewrite get_argument_eq.
  destruct (truthy (value_of args st)) eqn:Hargs; simpl;
    [| split; [split; [discriminate | intros [[=] _]] | discriminate]].
  destruct (truthy (value_of key st)) eqn:Hkey; simpl;
    [| split; [split; [discriminate | intros (_ & [=] & _)] | discriminate]].
  destruct (value_of args st) as [| b | z | s | items] eqn:Hva;
    try (split; [split |]; simpl;
         [ intros [= <-]; repeat split; left; split; [intros i; discriminate | reflexivity]
         | intros (_ & _ & [[_ ->] | [(i & i' & [=] & _) _]]); reflexivity
         | reflexivity ]).
  destruct (value_of key st) as [| b | z | s | items'] eqn:Hvk; simpl;
    try (split; [split |];
         [ discriminate
         | intros (_ & _ & [[Hnot _] | [(i & i' & _ & [=]) _]]);
           exfalso; apply (Hnot items); reflexivity
         | discriminate ]).
  split; [split |].
  - intros [= <-]. repeat split. right. split; [eauto | reflexivity].
  - intros (_ & _ & [[Hnot _] | [_ ->]]); [| reflexivity].
    exfalso. apply (Hnot items). reflexivity.
  - reflexivity.
Qed.

Lemma get_argument_raises_iff_witness :
  fst (execute (MCPGetArgument 8 (Lit (VStr "oops")) (Lit (VStr "id")) (Lit VNone))
         Sample.fresh) = Raise AttributeError /\
  snd (execute (MCPGetArgument 8 (Lit (VStr "oops")) (Lit (VStr "id")) (Lit VNone))
         Sample.fresh) = Sample.fresh.
Proof.
  pose proof (get_argument_raises_iff 8 (Lit (VStr "oops")) (Lit (VStr "id"))
                (Lit VNone) Sample.fresh AttributeError) as [Hiff Hsame].
  assert (fst (execute (MCPGetArgument 8 (Lit (VStr "oops")) (Lit (VStr "id"))
                          (Lit VNone)) Sample.fresh) = Raise AttributeError) as Hraise.
  { apply Hiff. split; [reflexivity |]. split; [reflexivity |].
    left. split; [intros items; discriminate | reflexivity]. }
  split; [exact Hraise | exact (Hsame Hraise)].
Defined.

(** ** What a call touches *)

(** A chain node changes neither the server objects nor the SDK flag, and
    the only port it may write is a [value] port. *)
Lemma execute_frame (n : Node) (st : State) :
  servers (snd (execute n st)) = servers st /\
  sdk_installed (snd (execute n st)) = sdk_installed st /\
  forall c p, p <> "value" -> ports (snd (execute n st)) !! (c, p) = ports st !! (c, p).
Proof.
  destruct n as [a | a | a | c0 args key dflt].
  1-3: simpl; unfold bind; rewrite read_eq; simpl; auto.
  rewrite get_argument_eq.
  destruct (negb (truthy (value_of args st))); simpl.
  { split; [reflexivity |]. split; [reflexivity |].
    intros c p Hp. apply lookup_insert_ne. congruence. }
  destruct (negb (truthy (value_of key st))); simpl; [auto |].
  destruct (fst (py_get _ _ _ st)) as [v | e]; simpl; [| auto].
  split; [reflexivity |]. split; [reflexivity |].
  intros c p Hp. apply lookup_insert_ne. congruence.
Qed.

Lemma do_frame (chain : list Node) (st : State) :
  servers (snd (SubGraphExecutor_do chain st)) = servers st /\
  sdk_installed (snd (SubGraphExecutor_do chain st)) = sdk_installed st /\
  forall c p, p <> "value" ->
    ports (snd (SubGraphExecutor_do chain st)) !! (c, p) = ports st !! (c, p).
Proof.
  revert st. induction chain as [| n chain IH]; intros st; [simpl; auto |].
  simpl. unfold bind. pose proof (execute_frame n st) as (Hs & Hf & Hp).
  destruct (execute n st) as [[[] | e] st1]; simpl in *; [| auto].
  destruct (IH st1) as (Hs' & Hf' & Hp').
  split; [congruence |]. split; [congruence |].
  intros c p Hne. rewrite Hp' by exact Hne. apply Hp, Hne.
Qed.

(** X11: a call changes nothing but ports and output.  For a chain made
    of the result-setting components and [MCPGetArgument], and however the
    call ends, the handler leaves the keys of the process-wide context and
    every server object as they were (a call registers nothing), and once
    it is over the [args] port of the defining component holds the keyword
    arguments of this call and its [ctx] port their ["ctx"] entry, [None]
    when there is none. *)
Theorem handler_footprint (self : Define) (kwargs : list (string * Value)) (st : State) :
  ctx (snd (handler self kwargs st)) = ctx st /\
  servers (snd (handler self kwargs st)) = servers st /\
  ports (snd (handler self kwargs st)) !! (oid self, "args") = Some (VDict kwargs) /\
  ports (snd (handler self kwargs st)) !! (oid self, "ctx") =
    Some (dict_get kwargs "ctx" VNone).
Proof.
  assert (ports (enter self kwargs st) !! (oid self, "args") = Some (VDict kwargs) /\
          ports (enter self kwargs st) !! (oid self, "ctx") =
            Some (dict_get kwargs "ctx" VNone)) as [Hargs Hctx].
  { unfold enter. simpl. split.
    - rewrite lookup_insert_ne by (intros [=]). apply lookup_insert_eq.
    - apply lookup_insert_eq. }
  rewrite handler_eq. destruct (next self) as [| n rest]; [simpl; auto |].
  pose proof (do_frame (n :: rest) (enter self kwargs st)) as (Hs & _ & Hp).
  destruct (SubGraphExecutor_do (n :: rest) (enter self kwargs st))
    as [[[] | e] st1]; simpl in *;
    (split; [reflexivity |]; split; [exact Hs |]; split;
     [rewrite Hp by discriminate; exact Hargs
     | rewrite Hp by discriminate; exact Hctx]).
Qed.

(** X12: fetch and return.  A handler whose chain reads the argument [k]
    from the component's [args] port and hands it to the result-setting
    node of its kind returns the value the call was given for [k], and
    the default [d] when the call has no such argument, whatever earlier
    calls left behind. *)
Theorem handler_returns_argument
    (self : Define) (g : nat) (k : string) (d : Value)
    (kwargs : list (string * Value)) (st : State) :
  next self =
    [MCPGetArgument g (Conn (oid self) "args") (Lit (VStr k)) (Lit d);
     set_result (kind self) (Conn g "value")] ->
  k <> "" ->
  fst (handler self kwargs st) = Ok (EVal (dict_get kwargs k d)).
Proof.
  intros Hnext Hk. rewrite handler_eq, Hnext.
  cbn [SubGraphExecutor_do]. unfold bind at 1. rewrite get_argument_eq.
  assert (value_of (Conn (oid self) "args") (enter self kwargs st) = VDict kwargs) as ->.
  { unfold enter, value_of. simpl.
    rewrite lookup_insert_ne by (intros [=]). rewrite lookup_insert_eq. reflexivity. }
  assert (truthy (value_of (Lit (VStr k)) (enter self kwargs st)) = true) as ->.
  { simpl. destruct (String.eqb_spec k ""); [congruence | reflexivity]. }
  destruct kwargs as [| item kwargs]; simpl negb; cbv iota.
  - unfold bind.
    match goal with |- context [execute (set_result ?kd ?a) ?s] =>
      destruct (execute_set_result kd a s) as [Hok Hval];
      destruct (execute (set_result kd a) s) as [[[] | e] st2] end;
      [| discriminate Hok].
    simpl in *. rewrite Hval. unfold value_of. simpl.
    rewrite lookup_insert_eq. reflexivity.
  - cbn [py_get value_of ret fst]. unfold bind.
    match goal with |- context [execute (set_result ?kd ?a) ?s] =>
      destruct (execute_set_result kd a s) as [Hok Hval];
      destruct (execute (set_result kd a) s) as [[[] | e] st2] end;
      [| discriminate Hok].
    simpl in Hval |- *. rewrite Hval. unfold value_of. simpl.
    rewrite lookup_insert_eq. reflexivity.
Qed.

Lemma handler_returns_argument_witness :
  fst (handler Sample.echo [("x", VInt 7)] Sample.serving) = Ok (EVal (VInt 7)).
Proof.
  apply (handler_returns_argument Sample.echo 5 "x" VNone [("x", VInt 7)] Sample.serving).
  - reflexivity.
  - discriminate.
Defined.

(** X13: a result written into the process-wide context is handed out by
    later calls.  When a result-setting component runs on the process-wide
    context itself (outside any call), every later call of a handler of
    that kind whose chain completes without setting a result returns that
    value instead of the empty result. *)
Theorem result_set_outside_a_call_is_returned
    (self : Define) (kwargs : list (string * Value)) (a : InArg) (st : State) :
  next self <> [] ->
  no_set (kind self) (next self) = true ->
  fst (SubGraphExecutor_do (next self)
         (enter self kwargs (snd (execute (set_result (kind self) a) st)))) = Ok tt ->
  fst (handler self kwargs (snd (execute (set_result (kind self) a) st))) =
    Ok (EVal (value_of a st)).
Proof.
  intros Hnext Hno Hdone.
  destruct (execute_set_result (kind self) a st) as [_ Hkey].
  set (st' := snd (execute (set_result (kind self) a) st)) in *.
  rewrite handler_eq. destruct (next self) as [| n rest] eqn:Hchain; [congruence |].
  pose proof (do_no_set (kind self) (n :: rest) (enter self kwargs st') Hno) as Hkeep.
  destruct (SubGraphExecutor_do (n :: rest) (enter self kwargs st'))
    as [[[] | e] st1]; [| discriminate Hdone].
  simpl in Hkeep |- *. rewrite Hkeep.
  change (ctx (enter self kwargs st')) with (ctx st').
  rewrite Hkey. reflexivity.
Qed.

Lemma result_set_outside_a_call_is_returned_witness :
  fst (handler Sample.probe [("x", VInt 3)]
         (snd (execute (MCPSetToolResult (Lit (VStr "stale"))) Sample.serving))) =
    Ok (EVal (VStr "stale")).
Proof.
  apply (result_set_outside_a_call_is_returned Sample.probe [("x", VInt 3)]
           (Lit (VStr "stale")) Sample.serving).
  - discriminate.
  - reflexivity.
  - reflexivity.
Defined.

(** ** The components around the caller handle *)

Lemma ctry_print_ok (body : Caller.C unit) (prefix : string) (s : Caller.Session) :
  fst (Caller.ctry body
         (fun e => Caller.lift (print (PrintExn prefix e))) s) = Ok tt.
Proof.
  unfold Caller.ctry. destruct (body s) as [[[] | e] s1]; reflexivity.
Qed.

(** X14: [MCPReportProgress.execute] never raises: a missing handle or a
    missing progress value is reported by a printed line, and whatever the
    handle raises is caught and printed. *)
Theorem report_progress_never_raises (self : MCPReportProgress.t) (s : Caller.Session) :
  fst (MCPReportProgress.execute self s) = Ok tt.
Proof.
  unfold MCPReportProgress.execute, Caller.cbind, Caller.has_caller.
  destruct (Caller.caller s) as [h |]; simpl; [| reflexivity].
  destruct (MCPReportProgress.current self), (MCPReportProgress.total self);
    try reflexivity.
  apply ctry_print_ok.
Qed.

(** X15: without a handle, or without a current or a total value,
    [MCPReportProgress.execute] calls nothing: the handle is as it was and
    one error line is printed.  The values are tested against [None], so a
    progress of 0 is not missing. *)
Theorem report_progress_guards (self : MCPReportProgress.t) (s : Caller.Session) :
  Caller.caller s = None \/
  MCPReportProgress.current self = None \/
  MCPReportProgress.total self = None ->
  Caller.caller (snd (MCPReportProgress.execute self s)) = Caller.caller s /\
  exists line,
    stdout (Caller.state (snd (MCPReportProgress.execute self s))) =
      stdout (Caller.state s) ++ [line] /\
    ports (Caller.state (snd (MCPReportProgress.execute self s))) =
      ports (Caller.state s).
Proof.
  intros Hguard.
  unfold MCPReportProgress.execute, Caller.cbind, Caller.has_caller.
  destruct (Caller.caller s) as [h |] eqn:Hcaller; simpl.
  - destruct Hguard as [[=] | [Hc | Ht]].
    + rewrite Hc. unfold Caller.lift. simpl. rewrite Hcaller. eauto.
    + rewrite Ht. destruct (MCPReportProgress.current self);
        unfold Caller.lift; simpl; rewrite Hcaller; eauto.
  - unfold Caller.lift. simpl. rewrite Hcaller. eauto.
Qed.

Lemma report_progress_guards_witness :
  Caller.caller (snd (MCPReportProgress.execute
    {| MCPReportProgress.current := Some 0%Z; MCPReportProgress.total := None;
       MCPReportProgress.message := Some "half way" |}
    {| Caller.state := Sample.fresh; Caller.caller := None |})) = None /\
  exists line,
    stdout (Caller.state (snd (MCPReportProgress.execute
      {| MCPReportProgress.current := Some 0%Z; MCPReportProgress.total := None;
         MCPReportProgress.message := Some "half way" |}
      {| Caller.state := Sample.fresh; Caller.caller := None |}))) =
      stdout Sample.fresh ++ [line] /\
    ports (Caller.state (snd (MCPReportProgress.execute
      {| MCPReportProgress.current := Some 0%Z; MCPReportProgress.total := None;
         MCPReportProgress.message := Some "half way" |}
      {| Caller.state := Sample.fresh; Caller.caller := None |}))) =
      ports Sample.fresh.
Proof.
  apply (report_progress_guards
    {| MCPReportProgress.current := Some 0%Z; MCPReportProgress.total := None;
       MCPReportProgress.message := Some "half way" |}
    {| Caller.state := Sample.fresh; Caller.caller := None |}).
  left. reflexivity.
Defined.

(** X16: the message goes first.  With a handle and both progress values,
    [MCPReportProgress.execute] sends a non-empty message by [info] and
    then the progress by [report_progress]; when [info] raises,
    [report_progress] is never called; an empty or absent message is not
    sent at all. *)
Theorem report_progress_calls
    (self : MCPReportProgress.t) (s : Caller.Session)
    (h : Caller.Handle) (current total : Z) :
  Caller.caller s = Some h ->
  MCPReportProgress.current self = Some current ->
  MCPReportProgress.total self = Some total ->
  exists h',
    Caller.caller (snd (MCPReportProgress.execute self s)) = Some h' /\
    Caller.received h' =
      Caller.received h ++
      if truthy_str (MCPReportProgress.message self) then
        match Caller.raises h (Caller.received h)
                (Caller.info (str_opt (MCPReportProgress.message self))) with
        | Some _ => [Caller.info (str_opt (MCPReportProgress.message self))]
        | None => [Caller.info (str_opt (MCPReportProgress.message self));
                   Caller.report_progress current total]
        end
      else [Caller.report_progress current total].
Proof.
  intros Hcaller Hc Ht.
  unfold MCPReportProgress.execute, Caller.cbind, Caller.has_caller.
  rewrite Hcaller, Hc, Ht. simpl.
  unfold Caller.ctry, Caller.cbind, Caller.method, Caller.cret, Caller.lift.
  destruct (truthy_str (MCPReportProgress.message self)); simpl; rewrite Hcaller; simpl.
  - destruct (Caller.raises h (Caller.received h) _) as [e |]; simpl.
    + eexists. split; reflexivity.
    + destruct (Caller.raises h _ (Caller.report_progress current total));
        simpl; eexists; (split; [reflexivity |]); simpl;
        rewrite <- app_assoc; reflexivity.
  - destruct (Caller.raises h _ (Caller.report_progress current total));
      simpl; eexists; split; reflexivity.
Qed.

Lemma report_progress_calls_witness :
  (exists h',
     Caller.caller (snd (MCPReportProgress.execute SampleCaller.progress
                           (SampleCaller.with_handle SampleCaller.obliging))) = Some h' /\
     Caller.received h' = [Caller.info "starting"; Caller.report_progress 0 10]) /\
  (exists h',
     Caller.caller (snd (MCPReportProgress.execute SampleCaller.progress
                           (SampleCaller.with_handle SampleCaller.grumpy))) = Some h' /\
     Caller.received h' = [Caller.info "starting"]).
Proof.
  split.
  - apply (report_progress_calls SampleCaller.progress
             (SampleCaller.with_handle SampleCaller.obliging)
             SampleCaller.obliging 0 10); reflexivity.
  - apply (report_progress_calls SampleCaller.progress
             (SampleCaller.with_handle SampleCaller.grumpy)
             SampleCaller.grumpy 0 10); reflexivity.
Defined.

(** X17: [MCPReadResource.execute] never raises, and it writes its two
    output ports together or not at all: after the call either both
    [data] and [mime_type] hold what the handle returned, or every port is
    what it was before. *)
Theorem read_resource_all_or_nothing (c : MCPReadResource.t) (s : Caller.Session) :
  fst (MCPReadResource.execute c s) = Ok tt /\
  (ports (Caller.state (snd (MCPReadResource.execute c s))) = ports (Caller.state s) \/
   exists h data mime,
     Caller.caller s = Some h /\
     Caller.resource h (Caller.received h) (str_opt (MCPReadResource.uri c)) = (data, mime) /\
     ports (Caller.state (snd (MCPReadResource.execute c s))) =
       <[(MCPReadResource.self c, "mime_type") := mime]>
         (<[(MCPReadResource.self c, "data") := data]> (ports (Caller.state s)))).
Proof.
  unfold MCPReadResource.execute, Caller.cbind, Caller.has_caller.
  destruct (Caller.caller s) as [h |] eqn:Hcaller; simpl; [| auto].
  destruct (truthy_str (MCPReadResource.uri c)); simpl; [| auto].
  split; [apply ctry_print_ok |].
  unfold Caller.ctry, Caller.cbind, Caller.method, Caller.lift. rewrite Hcaller. simpl.
  destruct (Caller.raises h (Caller.received h) _) as [e |]; simpl; [auto |].
  right. destruct (Caller.resource h (Caller.received h) _) as [data mime] eqn:Hres.
  exists h, data, mime. auto.
Qed.

(** X18: a successful read.  With a handle, a non-empty URI and a read
    that does not raise, [MCPReadResource.execute] asks the handle for
    that URI once, stores the data and the MIME type it gets, and prints
    the URI. *)
Theorem read_resource_success
    (c : MCPReadResource.t) (s : Caller.Session) (h : Caller.Handle) (uri : string) :
  Caller.caller s = Some h ->
  MCPReadResource.uri c = Some uri ->
  uri <> "" ->
  Caller.raises h (Caller.received h) (Caller.read_resource uri) = None ->
  ports (Caller.state (snd (MCPReadResource.execute c s))) !! (MCPReadResource.self c, "data") =
    Some (fst (Caller.resource h (Caller.received h) uri)) /\
  ports (Caller.state (snd (MCPReadResource.execute c s))) !! (MCPReadResource.self c, "mime_type") =
    Some (snd (Caller.resource h (Caller.received h) uri)) /\
  stdout (Caller.state (snd (MCPReadResource.execute c s))) =
    stdout (Caller.state s) ++ [Print ("Read resource: " ++ uri)] /\
  exists h',
    Caller.caller (snd (MCPReadResource.execute c s)) = Some h' /\
    Caller.received h' = Caller.received h ++ [Caller.read_resource uri].
Proof.
  intros Hcaller Huri Hne Hok.
  unfold MCPReadResource.execute, Caller.cbind, Caller.has_caller.
  rewrite Hcaller, Huri. simpl.
  destruct (String.eqb_spec uri "") as [| _]; [congruence |]. simpl.
  unfold Caller.ctry, Caller.cbind, Caller.method, Caller.lift.
  rewrite Hcaller. simpl. rewrite Hok. simpl.
  split; [| split; [| split]].
  - rewrite lookup_insert_ne by (intros [=]). apply lookup_insert_eq.
  - apply lookup_insert_eq.
  - reflexivity.
  - eexists. split; reflexivity.
Qed.

Lemma read_resource_success_witness :
  ports (Caller.state (snd (MCPReadResource.execute SampleCaller.profile
           (SampleCaller.with_handle SampleCaller.obliging)))) !! (20, "data") =
    Some (VStr "hello") /\
  ports (Caller.state (snd (MCPReadResource.execute SampleCaller.profile
           (SampleCaller.with_handle SampleCaller.obliging)))) !! (20, "mime_type") =
    Some (VStr "text/plain") /\
  stdout (Caller.state (snd (MCPReadResource.execute SampleCaller.profile
           (SampleCaller.with_handle SampleCaller.obliging)))) =
    [Print "Read resource: users://42/profile"] /\
  exists h',
    Caller.caller (snd (MCPReadResource.execute SampleCaller.profile
                          (SampleCaller.with_handle SampleCaller.obliging))) = Some h' /\
    Caller.received h' = [Caller.read_resource "users://42/profile"].
Proof.
  apply (read_resource_success SampleCaller.profile
           (SampleCaller.with_handle SampleCaller.obliging)
           SampleCaller.obliging "users://42/profile");
    [reflexivity | reflexivity | discriminate | reflexivity].
Defined.

(** X19: a failed read.  When the handle's [read_resource] raises, the
    exception is caught: the call returns normally, no port is written and
    the error is printed. *)
Theorem read_resource_failure
    (c : MCPReadResource.t) (s : Caller.Session) (h : Caller.Handle)
    (uri : string) (e : Exn) :
  Caller.caller s = Some h ->
  MCPReadResource.uri c = Some uri ->
  uri <> "" ->
  Caller.raises h (Caller.received h) (Caller.read_resource uri) = Some e ->
  fst (MCPReadResource.execute c s) = Ok tt /\
  ports (Caller.state (snd (MCPReadResource.execute c s))) = ports (Caller.state s) /\
  stdout (Caller.state (snd (MCPReadResource.execute c s))) =
    stdout (Caller.state s) ++ [PrintExn "Error reading resource: " e].
Proof.
  intros Hcaller Huri Hne Hraise.
  unfold MCPReadResource.execute, Caller.cbind, Caller.has_caller.
  rewrite Hcaller, Huri. simpl.
  destruct (String.eqb_spec uri "") as [| _]; [congruence |]. simpl.
  unfold Caller.ctry, Caller.cbind, Caller.method, Caller.lift.
  rewrite Hcaller. simpl. rewrite Hraise. simpl. auto.
Qed.

Lemma read_resource_failure_witness :
  fst (MCPReadResource.execute SampleCaller.profile
         (SampleCaller.with_handle SampleCaller.grumpy)) = Ok tt /\
  ports (Caller.state (snd (MCPReadResource.execute SampleCaller.profile
           (SampleCaller.with_handle SampleCaller.grumpy)))) = ports Sample.fresh /\
  stdout (Caller.state (snd (MCPReadResource.execute SampleCaller.profile
           (SampleCaller.with_handle SampleCaller.grumpy)))) =
    stdout Sample.fresh ++ [PrintExn "Error reading resource: " TypeError].
Proof.
  apply (read_resource_failure SampleCaller.profile
           (SampleCaller.with_handle SampleCaller.grumpy)
           SampleCaller.grumpy "users://42/profile" TypeError);
    [reflexivity | reflexivity | discriminate | reflexivity].
Defined.

(** ** MCPCreateUserMessage and MCPCreateAssistantMessage *)

Lemma substring_0_length (n : nat) (s : string) :
  String.length (String.substring 0 n s) = Nat.min n (String.length s).
Proof.
  revert s. induction n as [| n IH]; intros s; destruct s as [| a s]; simpl;
    try reflexivity.
  rewrite IH. reflexivity.
Qed.

Lemma substring_0_prefix (n : nat) (s : string) :
  String.prefix (String.substring 0 n s) s = true.
Proof.
  revert s. induction n as [| n IH]; intros s; destruct s as [| a s]; simpl;
    try reflexivity.
  destruct (Ascii.ascii_dec a a) as [_ | Hne]; [apply IH | congruence].
Qed.

(** X20: the message components never raise, and without the SDK they
    create nothing: the failed import is caught, the [message] port (and
    every other port) is left as it was, and the error is printed. *)
Theorem create_message_without_sdk (c : MCPCreateMessage.t) (st : State) :
  fst (MCPCreateMessage.execute c st) = Ok tt /\
  (sdk_installed st = false ->
   ports (snd (MCPCreateMessage.execute c st)) = ports st).
Proof.
  unfold MCPCreateMessage.execute.
  destruct (truthy_str (MCPCreateMessage.content c)); simpl; [| auto].
  split; [apply try_print_ok |].
  intros Hsdk. unfold MCPCreateMessage.import_message, try_except, bind, get_state.
  simpl. rewrite Hsdk. reflexivity.
Qed.

Lemma create_message_without_sdk_witness :
  fst (MCPCreateMessage.execute SampleCaller.greeting Sample.no_sdk) = Ok tt /\
  ports (snd (MCPCreateMessage.execute SampleCaller.greeting Sample.no_sdk)) =
    ports Sample.no_sdk.
Proof.
  pose proof (create_message_without_sdk SampleCaller.greeting Sample.no_sdk)
    as [Hok Hports].
  split; [exact Hok | apply Hports; reflexivity].
Defined.

(** X21: when the SDK is installed and has the message classes to import,
    and the content is a non-empty ASCII text, the message component
    stores a message of its role with the whole content on its [message]
    port and prints a preview that shows at most the first 50 characters
    of the content. *)
Theorem create_message_with_sdk (c : MCPCreateMessage.t) (st : State) (content : string) :
  sdk_installed st = true ->
  exports_messages st = true ->
  MCPCreateMessage.ascii_only content = true ->
  MCPCreateMessage.content c = Some content ->
  content <> "" ->
  ports (snd (MCPCreateMessage.execute c st)) !! (MCPCreateMessage.self c, "message") =
    Some (MCPCreateMessage.Message (MCPCreateMessage.role c) content) /\
  exists preview,
    stdout (snd (MCPCreateMessage.execute c st)) =
      stdout st ++
        [Print ("Created " ++ MCPCreateMessage.role_word (MCPCreateMessage.role c)
                ++ " message: " ++ preview ++ "...")] /\
    String.length preview = Nat.min 50 (String.length content) /\
    String.prefix preview content = true.
Proof.
  intros Hsdk Hexp _ Hcontent Hne. unfold MCPCreateMessage.execute.
  rewrite Hcontent. simpl.
  destruct (String.eqb_spec content "") as [| _]; [congruence |]. simpl.
  unfold MCPCreateMessage.import_message, try_except, bind, get_state.
  simpl. rewrite Hsdk, Hexp. simpl. split; [apply lookup_insert_eq |].
  exists (String.substring 0 50 content). split; [reflexivity |].
  split; [apply substring_0_length | apply substring_0_prefix].
Qed.

Lemma create_message_with_sdk_witness :
  ports (snd (MCPCreateMessage.execute SampleCaller.greeting Sample.fresh)) !! (21, "message") =
    Some (MCPCreateMessage.Message MCPCreateMessage.User "Hello there") /\
  exists preview,
    stdout (snd (MCPCreateMessage.execute SampleCaller.greeting Sample.fresh)) =
      stdout Sample.fresh ++ [Print ("Created user message: " ++ preview ++ "...")] /\
    String.length preview = Nat.min 50 (String.length "Hello there") /\
    String.prefix preview "Hello there" = true.
Proof.
  apply (create_message_with_sdk SampleCaller.greeting Sample.fresh "Hello there");
    [reflexivity | reflexivity | reflexivity | reflexivity | discriminate].
Defined.
